(** * Chicken-Chores billing backend: subscription reconciliation

    A shallow embedding of [src/api-routes.js]: the Express handlers
    [/verify-payment], [/restore-subscription], [/webhook] and
    [/cancel-subscription], together with the helper
    [updateUserSubscription], and the properties of the written
    specification that concern them.

    The payment provider (Stripe) and the document store (Firestore) are
    libraries the handlers call.  The provider is a record of functions
    whose results the handlers branch on; the store is a finite map of
    documents on which [DocumentReference.update] acts. *)

From Stdlib Require Import ZArith String Ascii.
From stdpp Require Import base option list gmap strings fin_maps.

Local Open Scope Z_scope.

(** ** JavaScript preliminaries *)

(** The outcome of a call that may throw (or of an awaited promise that
    may reject); [Throw] carries [error.message]. *)
Inductive Exn (A : Type) : Type :=
| Ok (a : A)
| Throw (message : string).
Arguments Ok {A} a.
Arguments Throw {A} message.

(** Values that end up in the objects handed to the store.  [JBuiltin]
    stands for a member inherited from [Object.prototype] (a function, or
    the prototype itself for [__proto__]); all of them are truthy. *)
Inductive JsVal : Type :=
| JUndefined
| JNull
| JStr (s : string)
| JBuiltin (name : string).

Global Instance JsVal_eq_dec : EqDecision JsVal.
Proof. solve_decision. Defined.

(** A property that may be absent ([undefined]) and otherwise holds a
    string. *)
Definition js_of_opt (o : option string) : JsVal :=
  match o with
  | Some s => JStr s
  | None => JUndefined
  end.

(** Like [js_of_opt] for a property the provider sends as [null] when it
    has no value. *)
Definition js_of_nullable (o : option string) : JsVal :=
  match o with
  | Some s => JStr s
  | None => JNull
  end.

(** Truthiness of an optional string: [undefined], [null] and [''] are
    falsy. *)
Definition truthy (o : option string) : bool :=
  match o with
  | Some s => negb (String.eqb s "")
  | None => false
  end.

(** Truthiness of an optional number: [undefined], [null] and [0] are
    falsy ([Boolean] as used by [.filter(Boolean)]). *)
Definition Boolean (v : option Z) : bool :=
  match v with
  | Some n => negb (n =? 0)
  | None => false
  end.

(** [ends.filter(Boolean)] on an array of optional numbers; what remains
    are numbers. *)
Fixpoint filter_Boolean (vs : list (option Z)) : list Z :=
  match vs with
  | [] => []
  | v :: vs' =>
      match v with
      | Some n => if Boolean v then n :: filter_Boolean vs' else filter_Boolean vs'
      | None => filter_Boolean vs'
      end
  end.

(** [Math.min(e, ...es)] on at least one number. *)
Definition Math_min (e : Z) (es : list Z) : Z := fold_left Z.min es e.

(** [a < b] where [a] may be [undefined]: the comparison with
    [undefined] is [false]. *)
Definition js_lt (a : option Z) (b : Z) : bool :=
  match a with
  | Some n => n <? b
  | None => false
  end.

(** *** [Date.prototype.toISOString] *)

Definition digit (n : Z) : ascii :=
  ascii_of_nat (48 + Z.to_nat (n mod 10)).

(** [n] in decimal on exactly [width] digits. *)
Fixpoint pad (width : nat) (n : Z) : string :=
  match width with
  | O => EmptyString
  | S w => String.append (pad w (n / 10)) (String (digit n) EmptyString)
  end.

(** Proleptic Gregorian date of a day count since 1970-01-01. *)
Definition civil_from_days (days : Z) : Z * Z * Z :=
  let z := days + 719468 in
  let era := z / 146097 in
  let doe := z - era * 146097 in
  let yoe := (doe - doe / 1460 + doe / 36524 - doe / 146096) / 365 in
  let doy := doe - (365 * yoe + yoe / 4 - yoe / 100) in
  let mp := (5 * doy + 2) / 153 in
  let d := doy - (153 * mp + 2) / 5 + 1 in
  let m := if mp <? 10 then mp + 3 else mp - 9 in
  let y := yoe + era * 400 + (if m <=? 2 then 1 else 0) in
  (y, m, d).

Definition iso_year (y : Z) : string :=
  if (0 <=? y) && (y <=? 9999) then pad 4 y
  else String.append (if y <? 0 then "-" else "+") (pad 6 (Z.abs y)).

Definition iso_format (ms : Z) : string :=
  let days := ms / 86400000 in
  let rest := ms mod 86400000 in
  let '(y, m, d) := civil_from_days days in
  String.concat ""
    [iso_year y; "-"; pad 2 m; "-"; pad 2 d; "T";
     pad 2 (rest / 3600000); ":"; pad 2 (rest / 60000 mod 60); ":";
     pad 2 (rest / 1000 mod 60); "."; pad 3 (rest mod 1000); "Z"]%string.

(** [new Date(ms).toISOString()]: a time value beyond 8.64e15 ms from the
    epoch makes an invalid date, on which [toISOString] throws a
    [RangeError]. *)
Definition Date_toISOString (ms : Z) : Exn string :=
  if Z.abs ms <=? 8640000000000000 then Ok (iso_format ms)
  else Throw "Invalid time value".

(** ** Provider objects (the fields the handlers read) *)

(** A subscription line item: [item.current_period_end] (epoch seconds,
    possibly absent) and [item.price.recurring.interval]. *)
Record Item : Type := {
  item_current_period_end : option Z;
  item_interval : string
}.

(** The [metadata] the checkout initiator attaches. *)
Record Metadata : Type := {
  md_userId : option string;
  md_plan : option string
}.

(** A subscription.  [sub_items] is [subscription.items.data], [None]
    when [items] or [items.data] is missing. *)
Record Subscription : Type := {
  sub_id : string;
  sub_status : string;
  sub_customer : string;
  sub_current_period_end : option Z;
  sub_items : option (list Item);
  sub_metadata : option Metadata
}.

Record Customer : Type := {
  cus_id : string;
  cus_email : option string
}.

(** A checkout session. *)
Record Session : Type := {
  ses_id : string;
  ses_subscription : option string;
  ses_customer : option string;
  ses_metadata : option Metadata
}.

Record Invoice : Type := {
  inv_subscription : option string
}.

(** A verified webhook event: [event.type] with [event.data.object]. *)
Inductive Event : Type :=
| CheckoutSessionCompleted (session : Session)
| InvoicePaymentSucceeded (invoice : Invoice)
| CustomerSubscriptionUpdated (updatedSub : Subscription)
| CustomerSubscriptionDeleted (canceledSub : Subscription)
| InvoicePaymentFailed (failedInvoice : Invoice)
| OtherEvent (type : string).

(** The provider client, as far as the handlers use it.  Each call
    resolves or rejects; the lists are the [data] arrays of list
    results.  [subscriptions_list c] is
    [stripe.subscriptions.list({customer: c, status: 'active', limit: 1})]
    and [webhooks_constructEvent body sig] is
    [stripe.webhooks.constructEvent(body, sig, STRIPE_WEBHOOK_SECRET)],
    which throws when the signature does not verify. *)
Record Stripe : Type := {
  customers_list : option string -> Exn (list Customer);
  customers_retrieve : string -> Exn Customer;
  subscriptions_list : string -> Exn (list Subscription);
  subscriptions_retrieve : string -> Exn Subscription;
  subscriptions_cancel : string -> Exn Subscription;
  webhooks_constructEvent : string -> option string -> Exn Event
}.

(** ** Responses *)

Record Summary : Type := {
  sum_id : string;
  sum_status : string;
  sum_customer : string;
  sum_plan : string;
  sum_current_period_end : JsVal
}.

Inductive Body : Type :=
| BError (error : string) (details : option string)
| BHasValidPayment (hasValidPayment : bool)
| BSubscription (subscription : option Summary)
| BReceived
| BCancelled (canceled : Subscription)
| BText (text : string).

Record Response : Type := {
  res_status : Z;
  res_body : Body
}.

(** [res.json(b)] and [res.status(code).json(b)] / [.send(b)]. *)
Definition res_json (b : Body) : Response :=
  {| res_status := 200; res_body := b |}.
Definition res_status_json (code : Z) (b : Body) : Response :=
  {| res_status := code; res_body := b |}.

(** ** Period end of a subscription

    The same statements occur four times in the source: in
    [/restore-subscription] and, as an immediately invoked function, in
    the [checkout.session.completed], [customer.subscription.updated] and
    [invoice.payment_failed] branches of [/webhook]. *)

Definition periodEnd_of (items : option (list Item)) : option Z :=
  match items with
  | Some ((_ :: _) as data) =>
      match filter_Boolean (map item_current_period_end data) with
      | e :: es => Some (Math_min e es)
      | [] => None
      end
  | _ => None
  end.

(** [periodEnd ? new Date(periodEnd * 1000).toISOString() : null] *)
Definition subscriptionEndDate_of (items : option (list Item)) : Exn JsVal :=
  let periodEnd := periodEnd_of items in
  if Boolean periodEnd then
    match periodEnd with
    | Some p =>
        match Date_toISOString (p * 1000) with
        | Ok iso => Ok (JStr iso)
        | Throw m => Throw m
        end
    | None => Ok JNull
    end
  else Ok JNull.

(** ** Read-only endpoints *)

(** [POST /verify-payment]; [nowMs] is [Date.now()]. *)
Definition verify_payment (stripe : Stripe) (nowMs : Z) (email : option string)
  : Response :=
  if negb (truthy email) then
    res_status_json 400 (BError "Email is required" None)
  else
    match customers_list stripe email with
    | Throw m => res_status_json 500 (BError "Failed to verify payment" (Some m))
    | Ok [] => res_json (BHasValidPayment false)
    | Ok (customer :: _) =>
        match subscriptions_list stripe (cus_id customer) with
        | Throw m =>
            res_status_json 500 (BError "Failed to verify payment" (Some m))
        | Ok [] => res_json (BHasValidPayment false)
        | Ok (subscription :: _) =>
            let now := nowMs / 1000 in
            if js_lt (sub_current_period_end subscription) now then
              res_json (BHasValidPayment false)
            else res_json (BHasValidPayment true)
        end
    end.

(** [POST /restore-subscription].  Reading
    [subscription.items.data[0].price.recurring.interval] throws a
    [TypeError] when there is no first item. *)
Definition restore_subscription (stripe : Stripe) (userId email : option string)
  : Response :=
  match customers_list stripe email with
  | Throw m => res_status_json 500 (BError "Failed to check subscription" (Some m))
  | Ok [] => res_json (BSubscription None)
  | Ok (customer :: _) =>
      match subscriptions_list stripe (cus_id customer) with
      | Throw m =>
          res_status_json 500 (BError "Failed to check subscription" (Some m))
      | Ok [] => res_json (BSubscription None)
      | Ok (subscription :: _) =>
          match sub_items subscription with
          | None =>
              res_status_json 500
                (BError "Failed to check subscription"
                   (Some "Cannot read properties of undefined (reading 'data')"))
          | Some [] =>
              res_status_json 500
                (BError "Failed to check subscription"
                   (Some "Cannot read properties of undefined (reading 'price')"))
          | Some (item0 :: _) =>
              let plan := item_interval item0 in
              match subscriptionEndDate_of (sub_items subscription) with
              | Throw m =>
                  res_status_json 500
                    (BError "Failed to check subscription" (Some m))
              | Ok subscriptionEndDate =>
                  res_json (BSubscription (Some
                    {| sum_id := sub_id subscription;
                       sum_status := sub_status subscription;
                       sum_customer := cus_id customer;
                       sum_plan := if String.eqb plan "year" then "yearly"
                                   else "monthly";
                       sum_current_period_end := subscriptionEndDate |}))
              end
          end
      end
  end.

(** ** The record store

    The collection [families] maps a document id to a document; a
    document maps a field name to a value, which is a scalar or a map of
    scalars ([subscriptionData] is such a map). *)

Abbreviation Fields := (gmap string JsVal).

Inductive FieldValue : Type :=
| Scalar (v : JsVal)
| MapValue (m : Fields).

Abbreviation Document := (gmap string FieldValue).
Abbreviation Store := (gmap string Document).

(** The state the handlers act on: the store, and the trace of the
    objects passed as [subscriptionData] to [userRef.update], with the id
    of the document addressed. *)
Record World : Type := {
  db : Store;
  writes : list (string * Fields)
}.

(** The stored [subscriptionData] of a user, when the document has one
    and it is a map. *)
Definition stored_subscriptionData (st : Store) (userId : string)
  : option Fields :=
  match st !! userId with
  | Some doc =>
      match doc !! "subscriptionData" with
      | Some (MapValue m) => Some m
      | _ => None
      end
  | None => None
  end.

(** [statusMap] of the [customer.subscription.updated] branch. *)
Definition statusMap : gmap string string :=
  {[ "active" := "active";
     "past_due" := "expired";
     "canceled" := "cancelled";
     "unpaid" := "expired" ]}.

(** The names an object literal inherits from [Object.prototype]. *)
Definition Object_prototype_members : list string :=
  [ "constructor"; "__defineGetter__"; "__defineSetter__"; "hasOwnProperty";
    "__lookupGetter__"; "__lookupSetter__"; "isPrototypeOf";
    "propertyIsEnumerable"; "toString"; "valueOf"; "__proto__";
    "toLocaleString" ].

(** [obj[key]] on an object literal with string values: an own property,
    else an inherited member, else [undefined]. *)
Definition object_get (obj : gmap string string) (key : string) : JsVal :=
  match obj !! key with
  | Some v => JStr v
  | None =>
      if bool_decide (key ∈ Object_prototype_members) then JBuiltin key
      else JUndefined
  end.

(** [v || d] *)
Definition js_or (v : JsVal) (d : string) : JsVal :=
  match v with
  | JUndefined | JNull => JStr d
  | JStr s => if String.eqb s "" then JStr d else JStr s
  | JBuiltin _ => v
  end.

(** [statusMap[status] || 'expired'] *)
Definition local_status (status : string) : JsVal :=
  js_or (object_get statusMap status) "expired".

Section Handlers.

(** Whether Firestore carries out [db.collection('families').doc(id)
    .update(data, {merge: true})] in a given store, or throws or
    rejects instead: the id may not name a document, a value of [data]
    may not be storable, the service may refuse the write.  The
    handlers only observe the one or the other. *)
Variable accepts : Store -> string -> Document -> bool.

(** [DocumentReference.update(data, precondition)]: each top-level
    field named in [data] is set to the value given for it, the other
    fields of the document stay.  An object given for a field takes the
    place of the map stored there; only a dotted field path, such as
    ['subscriptionData.status'], addresses a field inside it.  The
    second argument is a precondition; [merge] is an option of [set],
    not of [update]. *)
Definition firestore_update (st : Store) (id : string) (data : Document)
  : Exn Store :=
  if accepts st id data then
    Ok (<[ id := data ∪ default ∅ (st !! id) ]> st)
  else Throw "update failed".

(** [updateUserSubscription(userId, subscriptionData)]: nothing without
    a user id; a failure of the update is caught and logged. *)
Definition updateUserSubscription (userId : option string)
    (subscriptionData : Fields) (w : World) : World :=
  if negb (truthy userId) then w
  else
    let id := default "" userId in
    let w' := {| db := db w; writes := writes w ++ [(id, subscriptionData)] |} in
    match firestore_update (db w) id
            {[ "subscriptionData" := MapValue subscriptionData ]} with
    | Ok st' => {| db := st'; writes := writes w' |}
    | Throw _ => w'
    end.

(** The [switch (event.type)] of [/webhook], inside its [try].  In
    every branch the calls that may throw come before the call of
    [updateUserSubscription], so a throw leaves the world as it was. *)
Definition process_event (stripe : Stripe) (event : Event) (w : World)
  : Exn World :=
  match event with
  | CheckoutSessionCompleted session =>
      match ses_subscription session, ses_metadata session with
      | Some subscriptionId, Some metadata =>
          if truthy (ses_subscription session)
             && negb (bool_decide (md_userId metadata = Some "pending"))
          then
            match subscriptions_retrieve stripe subscriptionId with
            | Throw m => Throw m
            | Ok subscription =>
                match subscriptionEndDate_of (sub_items subscription) with
                | Throw m => Throw m
                | Ok subscriptionEndDate =>
                    Ok (updateUserSubscription (md_userId metadata)
                          {[ "status" := JStr "active";
                             "plan" := js_of_opt (md_plan metadata);
                             "customerId" := js_of_nullable (ses_customer session);
                             "subscriptionId" := JStr subscriptionId;
                             "subscriptionEndDate" := subscriptionEndDate ]}
                          w)
                end
            end
          else Ok w
      | _, _ => Ok w
      end
  | InvoicePaymentSucceeded invoice =>
      match inv_subscription invoice with
      | Some subscriptionId =>
          if truthy (inv_subscription invoice) then
            match subscriptions_retrieve stripe subscriptionId with
            | Throw m => Throw m
            | Ok subscription =>
                match customers_retrieve stripe (sub_customer subscription) with
                | Throw m => Throw m
                | Ok _ => Ok w
                end
            end
          else Ok w
      | None => Ok w
      end
  | CustomerSubscriptionUpdated updatedSub =>
      match sub_metadata updatedSub with
      | Some metadata =>
          if truthy (md_userId metadata)
             && negb (bool_decide (md_userId metadata = Some "pending"))
          then
            match subscriptionEndDate_of (sub_items updatedSub) with
            | Throw m => Throw m
            | Ok subscriptionEndDate =>
                Ok (updateUserSubscription (md_userId metadata)
                      {[ "status" := local_status (sub_status updatedSub);
                         "subscriptionEndDate" := subscriptionEndDate ]}
                      w)
            end
          else Ok w
      | None => Ok w
      end
  | CustomerSubscriptionDeleted canceledSub =>
      match sub_metadata canceledSub with
      | Some metadata =>
          if truthy (md_userId metadata) then
            Ok (updateUserSubscription (md_userId metadata)
                  {[ "status" := JStr "cancelled";
                     "subscriptionEndDate" := JNull ]}
                  w)
          else Ok w
      | None => Ok w
      end
  | InvoicePaymentFailed failedInvoice =>
      match inv_subscription failedInvoice with
      | Some subscriptionId =>
          if truthy (inv_subscription failedInvoice) then
            match subscriptions_retrieve stripe subscriptionId with
            | Throw m => Throw m
            | Ok subscription =>
                match sub_metadata subscription with
                | Some metadata =>
                    if truthy (md_userId metadata) then
                      match subscriptionEndDate_of (sub_items subscription) with
                      | Throw m => Throw m
                      | Ok subscriptionEndDate =>
                          Ok (updateUserSubscription (md_userId metadata)
                                {[ "status" := JStr "expired";
                                   "subscriptionEndDate" := subscriptionEndDate ]}
                                w)
                      end
                    else Ok w
                | None => Ok w
                end
            end
          else Ok w
      | None => Ok w
      end
  | OtherEvent _ => Ok w
  end.

(** [POST /webhook]: the raw body and the [stripe-signature] header. *)
Definition webhook (stripe : Stripe) (body : string) (sig : option string)
    (w : World) : Response * World :=
  match webhooks_constructEvent stripe body sig with
  | Throw m =>
      (res_status_json 400 (BText (String.append "Webhook Error: " m)), w)
  | Ok event =>
      match process_event stripe event w with
      | Ok w' => (res_json BReceived, w')
      | Throw _ =>
          (res_status_json 500 (BError "Webhook processing failed" None), w)
      end
  end.

(** [POST /cancel-subscription] *)
Definition cancel_subscription (stripe : Stripe)
    (userId subscriptionId : option string) (w : World) : Response * World :=
  if negb (truthy userId) || negb (truthy subscriptionId) then
    (res_status_json 400 (BError "Missing userId or subscriptionId" None), w)
  else
    match subscriptions_cancel stripe (default "" subscriptionId) with
    | Throw m =>
        (res_status_json 500
           (BError "Failed to cancel subscription" (Some m)), w)
    | Ok canceled =>
        (res_json (BCancelled canceled),
         updateUserSubscription userId
           {[ "status" := JStr "cancelled";
              "subscriptionEndDate" := JNull ]}
           w)
    end.

End Handlers.

(** ** Vocabulary of the statements *)

(** The objects the newly made calls of [userRef.update] carried. *)
Definition written (before after : World) : list (string * Fields) :=
  drop (length (writes before)) (writes after).

(** The object both cancellation paths write. *)
Definition cancelled_data : Fields :=
  {[ "status" := JStr "cancelled"; "subscriptionEndDate" := JNull ]}.

(** [e] is the period end of a line item, neither missing nor zero. *)
Definition counted_end (items : option (list Item)) (e : Z) : Prop :=
  exists data it,
    items = Some data /\ it ∈ data /\ item_current_period_end it = Some e /\ e <> 0.

(** [e] is the period end of a line item, zero or not. *)
Definition present_end (items : option (list Item)) (e : Z) : Prop :=
  exists data it,
    items = Some data /\ it ∈ data /\ item_current_period_end it = Some e.

(** The conversion applied to a period end that is not null. *)
Definition iso_of_epoch (p : Z) : Exn JsVal :=
  match Date_toISOString (p * 1000) with
  | Ok iso => Ok (JStr iso)
  | Throw m => Throw m
  end.

(** The period end in the words of the specification: "collect every
    subscription line item's period-end epoch, drop missing values, take
    the minimum if any remain, else null; convert a non-null value to
    ISO-8601, else store null".  Used only to compare with
    [subscriptionEndDate_of]. *)
Definition spec_periodEnd (items : option (list Item)) : option Z :=
  match omap item_current_period_end (default [] items) with
  | e :: es => Some (Math_min e es)
  | [] => None
  end.

Definition spec_subscriptionEndDate (items : option (list Item)) : Exn JsVal :=
  match spec_periodEnd items with
  | Some p => iso_of_epoch p
  | None => Ok JNull
  end.

(** The line item with a period end of zero read as a missing one. *)
Definition zero_as_missing (item : Item) : Item :=
  {| item_current_period_end :=
       match item_current_period_end item with
       | Some 0 => None
       | other => other
       end;
     item_interval := item_interval item |}.

(** The subscription whose line items a webhook branch derives the
    period end from: the one retrieved for a checkout session or a failed
    invoice, the event's own for an update. *)
Definition subscription_of_event (stripe : Stripe) (event : Event)
  : option Subscription :=
  let retrieved (subscriptionId : option string) :=
    match subscriptionId with
    | Some id =>
        match subscriptions_retrieve stripe id with
        | Ok subscription => Some subscription
        | Throw _ => None
        end
    | None => None
    end in
  match event with
  | CheckoutSessionCompleted session => retrieved (ses_subscription session)
  | CustomerSubscriptionUpdated updatedSub => Some updatedSub
  | InvoicePaymentFailed failedInvoice => retrieved (inv_subscription failedInvoice)
  | _ => None
  end.

(** ** A store as documented, and sample data *)

Definition storable_val (v : JsVal) : bool :=
  match v with
  | JStr _ | JNull => true
  | JUndefined | JBuiltin _ => false
  end.

Definition storable (fv : FieldValue) : bool :=
  match fv with
  | Scalar v => storable_val v
  | MapValue m => forallb (fun kv => storable_val kv.2) (map_to_list m)
  end.

(** [update] as documented: it fails on a document that does not exist,
    and on values Firestore cannot store ([undefined], functions). *)
Definition accepts_existing (st : Store) (id : string) (data : Document) : bool :=
  bool_decide (is_Some (st !! id))
  && forallb (fun kv => storable kv.2) (map_to_list data).

(** A provider client that cannot be reached and verifies no signature. *)
Definition no_stripe : Stripe :=
  {| customers_list := fun _ => Throw "connection refused";
     customers_retrieve := fun _ => Throw "connection refused";
     subscriptions_list := fun _ => Throw "connection refused";
     subscriptions_retrieve := fun _ => Throw "connection refused";
     subscriptions_cancel := fun _ => Throw "connection refused";
     webhooks_constructEvent := fun _ _ =>
       Throw "No signatures found matching the expected signature for payload" |}.

(** A provider client that verifies every payload as [event]. *)
Definition delivering (event : Event) : Stripe :=
  {| customers_list := customers_list no_stripe;
     customers_retrieve := customers_retrieve no_stripe;
     subscriptions_list := subscriptions_list no_stripe;
     subscriptions_retrieve := subscriptions_retrieve no_stripe;
     subscriptions_cancel := subscriptions_cancel no_stripe;
     webhooks_constructEvent := fun _ _ => Ok event |}.

(** A provider client with one customer, whose active subscriptions are
    [subs]; retrieving or cancelling gives the first of them. *)
Definition listing (subs : list Subscription) : Stripe :=
  {| customers_list := fun _ => Ok [ {| cus_id := "cus_1"; cus_email := None |} ];
     customers_retrieve := customers_retrieve no_stripe;
     subscriptions_list := fun _ => Ok subs;
     subscriptions_retrieve := fun _ =>
       match subs with
       | s :: _ => Ok s
       | [] => Throw "No such subscription"
       end;
     subscriptions_cancel := fun _ =>
       match subs with
       | s :: _ => Ok s
       | [] => Throw "No such subscription"
       end;
     webhooks_constructEvent := webhooks_constructEvent no_stripe |}.

Definition item_ending (e : option Z) : Item :=
  {| item_current_period_end := e; item_interval := "month" |}.

(** A subscription of family [userId] with the given provider status and
    line items ending at [ends]. *)
Definition sub_of (status : string) (userId : option string)
    (ends : list (option Z)) : Subscription :=
  {| sub_id := "sub_1";
     sub_status := status;
     sub_customer := "cus_1";
     sub_current_period_end := None;
     sub_items := Some (map item_ending ends);
     sub_metadata := Some {| md_userId := userId; md_plan := Some "monthly" |} |}.

(** An active subscription with the given subscription-level
    [current_period_end] and one monthly line item ending then. *)
Definition sub_until (e : option Z) : Subscription :=
  {| sub_id := "sub_1";
     sub_status := "active";
     sub_customer := "cus_1";
     sub_current_period_end := e;
     sub_items := Some [item_ending e];
     sub_metadata := Some {| md_userId := Some "u1"%string;
                             md_plan := Some "monthly"%string |} |}.

(** A store in which family [u1] has a name and a full subscription. *)
Definition family_u1 : Document :=
  {[ "familyName" := Scalar (JStr "Hen House");
     "subscriptionData" := MapValue
       {[ "status" := JStr "active";
          "plan" := JStr "monthly";
          "customerId" := JStr "cus_1";
          "subscriptionId" := JStr "sub_1";
          "subscriptionEndDate" := JStr "2023-11-14T22:13:20.000Z" ]} ]}.

Definition world_u1 : World :=
  {| db := {[ "u1" := family_u1 ]}; writes := [] |}.

(** Sample events for family [u1], and the world after the webhook has
    handled one of them in [world_u1]. *)
Definition updated_u1 (status : string) : Event :=
  CustomerSubscriptionUpdated (sub_of status (Some "u1"%string) [Some 100]).

Definition deleted_u1 : Event :=
  CustomerSubscriptionDeleted (sub_of "canceled" (Some "u1"%string) [Some 100]).

Definition after_event (event : Event) : World :=
  (webhook accepts_existing (delivering event) "{}" (Some "t=1,v1=0"%string)
     world_u1).2.

(** ** Checkout sessions *)

(** The body of [POST /create-checkout-session].  [co_isNewSignup] is
    the truthiness of [isNewSignup], the only way the handler reads it. *)
Record CheckoutRequest : Type := {
  co_plan : option string;
  co_userId : option string;
  co_email : option string;
  co_familyName : option string;
  co_isNewSignup : bool
}.

(** The two price ids of [process.env]. *)
Record Env : Type := {
  STRIPE_MONTHLY_PRICE_ID : option string;
  STRIPE_YEARLY_PRICE_ID : option string
}.

(** [v || d] on an optional string. *)
Definition str_or (v : option string) (d : string) : string :=
  match v with
  | Some s => if String.eqb s "" then d else s
  | None => d
  end.

(** [`${v}`] on an optional string. *)
Definition template (v : option string) : string :=
  match v with
  | Some s => s
  | None => "undefined"
  end.

Definition prices (env : Env) : gmap string string :=
  {[ "monthly" := str_or (STRIPE_MONTHLY_PRICE_ID env) "price_YOUR_MONTHLY_PRICE_ID";
     "yearly" := str_or (STRIPE_YEARLY_PRICE_ID env) "price_YOUR_YEARLY_PRICE_ID" ]}.

(** [sessionConfig]; [line_items] has the one entry with [cfg_price] and
    [cfg_quantity]. *)
Record SessionConfig : Type := {
  cfg_payment_method_types : list string;
  cfg_price : JsVal;
  cfg_quantity : Z;
  cfg_mode : string;
  cfg_success_url : string;
  cfg_cancel_url : string;
  cfg_customer_email : JsVal;
  cfg_metadata_userId : string;
  cfg_metadata_familyName : JsVal;
  cfg_metadata_plan : JsVal;
  cfg_metadata_isNewSignup : string
}.

(** [origin] is [req.headers.origin]; [prices[plan]] with a missing
    [plan] reads the property named [undefined]. *)
Definition sessionConfig_of (env : Env) (origin : option string)
    (req : CheckoutRequest) : SessionConfig :=
  {| cfg_payment_method_types := ["card"%string];
     cfg_price := object_get (prices env) (template (co_plan req));
     cfg_quantity := 1;
     cfg_mode := "subscription";
     cfg_success_url :=
       String.append (template origin)
         (String.append "?success=true"
            (if co_isNewSignup req then "&signup=true" else ""));
     cfg_cancel_url := String.append (template origin) "?canceled=true";
     cfg_customer_email := js_of_opt (co_email req);
     cfg_metadata_userId := str_or (co_userId req) "pending";
     cfg_metadata_familyName := js_of_opt (co_familyName req);
     cfg_metadata_plan := js_of_opt (co_plan req);
     cfg_metadata_isNewSignup := if co_isNewSignup req then "true" else "false" |}.

Inductive CheckoutBody : Type :=
| CheckoutId (id : string)
| CheckoutError (error : string) (details : string).

(** [POST /create-checkout-session]; [create] is
    [stripe.checkout.sessions.create], resolving to [session.id]. *)
Definition create_checkout_session (env : Env)
    (create : SessionConfig -> Exn string) (origin : option string)
    (req : CheckoutRequest) : Z * CheckoutBody :=
  match create (sessionConfig_of env origin req) with
  | Ok id => (200, CheckoutId id)
  | Throw m => (500, CheckoutError "Failed to create checkout session" m)
  end.

(** The metadata the provider hands back, on the session of a
    [checkout.session.completed] event, for a session created from
    [config]: the strings given, a property given as [undefined] being
    absent. *)
Definition metadata_of_config (config : SessionConfig) : Metadata :=
  {| md_userId := Some (cfg_metadata_userId config);
     md_plan := match cfg_metadata_plan config with
                | JStr p => Some p
                | _ => None
                end |}.

(** ** The page route of [index.js] *)

(** [s.startsWith(sub)] *)
Fixpoint starts_with (s sub : string) : bool :=
  match sub, s with
  | EmptyString, _ => true
  | String _ _, EmptyString => false
  | String b sub', String a s' => Ascii.eqb a b && starts_with s' sub'
  end.

(** [s.includes(sub)] *)
Fixpoint includes (s sub : string) : bool :=
  starts_with s sub
  || match s with
     | EmptyString => false
     | String _ s' => includes s' sub
     end.

Inductive PageResponse : Type :=
| Send (status : Z) (text : string)
| SendFile (name : string).

(** [app.get('/')]: the headers [User-Agent] and [X-Health-Check]. *)
Definition root_route (userAgentHeader healthCheckHeader : option string)
  : PageResponse :=
  let userAgent := str_or userAgentHeader "" in
  if includes userAgent "GoogleHC" || includes userAgent "health"
     || truthy healthCheckHeader
  then Send 200 "OK"
  else SendFile "app.html".

(** ** Further vocabulary *)

(** The three values of the stored status. *)
Definition known_status (v : JsVal) : Prop :=
  v = JStr "active" \/ v = JStr "expired" \/ v = JStr "cancelled".

(** The date range of [Date], in epoch seconds. *)
Definition in_date_range (e : Z) : Prop :=
  -8640000000000 <= e <= 8640000000000.

(** ** Further sample data *)

(** A provider client that answers like [listing subs] and verifies
    every payload as [event]. *)
Definition serving (subs : list Subscription) (event : Event) : Stripe :=
  {| customers_list := customers_list (listing subs);
     customers_retrieve := fun _ => Ok {| cus_id := "cus_1"; cus_email := None |};
     subscriptions_list := subscriptions_list (listing subs);
     subscriptions_retrieve := subscriptions_retrieve (listing subs);
     subscriptions_cancel := subscriptions_cancel (listing subs);
     webhooks_constructEvent := fun _ _ => Ok event |}.
(** * Properties *)

(** ** [toISOString] on sample time values *)

Example iso_epoch : Date_toISOString 0 = Ok "1970-01-01T00:00:00.000Z"%string.
Proof. reflexivity. Qed.

Example iso_2023 :
  Date_toISOString 1700000000000 = Ok "2023-11-14T22:13:20.000Z"%string.
Proof. reflexivity. Qed.

Example iso_leap :
  Date_toISOString 1709208000123 = Ok "2024-02-29T12:00:00.123Z"%string.
Proof. reflexivity. Qed.

Example iso_before_epoch :
  Date_toISOString (-1) = Ok "1969-12-31T23:59:59.999Z"%string.
Proof. reflexivity. Qed.

Example iso_max :
  Date_toISOString 8640000000000000 = Ok "+275760-09-13T00:00:00.000Z"%string.
Proof. reflexivity. Qed.

Example iso_out_of_range :
  Date_toISOString 8640000000000001 = Throw "Invalid time value"%string.
Proof. reflexivity. Qed.

(** ** Period end: the derivation *)

Lemma Math_min_elem (e : Z) (es : list Z) : Math_min e es ∈ e :: es.
Proof.
  unfold Math_min. revert e.
  induction es as [|x es IH]; intros e; simpl.
  - left.
  - pose proof (IH (Z.min e x)) as Hmin.
    apply elem_of_cons in Hmin as [Hhd | Htl].
    + rewrite Hhd. destruct (Z.min_spec e x) as [[_ ->] | [_ ->]].
      * left.
      * right. left.
    + right. right. exact Htl.
Qed.

Lemma Math_min_le_first (e : Z) (es : list Z) : Math_min e es <= e.
Proof.
  unfold Math_min. revert e.
  induction es as [|y es IH]; intros e; simpl; [lia|].
  specialize (IH (Z.min e y)). lia.
Qed.

Lemma Math_min_lower (e : Z) (es : list Z) (x : Z) :
  x ∈ e :: es -> Math_min e es <= x.
Proof.
  revert e.
  induction es as [|y es IH]; intros e Hx.
  - apply list_elem_of_singleton in Hx. subst x. apply Math_min_le_first.
  - change (Math_min e (y :: es)) with (Math_min (Z.min e y) es).
    pose proof (Math_min_le_first (Z.min e y) es) as Hfirst.
    apply elem_of_cons in Hx as [Hx | Hx]; [lia|].
    apply elem_of_cons in Hx as [Hx | Hx]; [lia|].
    apply IH. right. exact Hx.
Qed.

Lemma elem_of_filter_Boolean (x : Z) (vs : list (option Z)) :
  x ∈ filter_Boolean vs <-> Some x ∈ vs /\ x <> 0.
Proof.
  induction vs as [|v vs IH]; simpl.
  - rewrite !elem_of_nil. tauto.
  - rewrite elem_of_cons. destruct v as [n|]; simpl.
    + destruct (Z.eqb_spec n 0) as [-> | Hn]; simpl.
      * rewrite IH. split.
        -- intros [H Hx]. auto.
        -- intros [[[= ->] | H] Hx]; [done | auto].
      * rewrite elem_of_cons, IH. split.
        -- intros [-> | [H Hx]]; auto.
        -- intros [[[= ->] | H] Hx]; auto.
    + rewrite IH. split.
      * intros [H Hx]. auto.
      * intros [[[=] | H] Hx]. auto.
Qed.

Lemma counted_end_filter (data : list Item) (e : Z) :
  e ∈ filter_Boolean (map item_current_period_end data)
  <-> counted_end (Some data) e.
Proof.
  rewrite elem_of_filter_Boolean, list_elem_of_fmap. split.
  - intros [(it & Heq & Hin) Hne]. exists data, it. done.
  - intros (data' & it & [= <-] & Hin & Heq & Hne). split; [|done].
    exists it. done.
Qed.

Lemma periodEnd_of_cons (it : Item) (data : list Item) :
  periodEnd_of (Some (it :: data)) =
  match filter_Boolean (map item_current_period_end (it :: data)) with
  | e :: es => Some (Math_min e es)
  | [] => None
  end.
Proof. reflexivity. Qed.

Lemma periodEnd_of_none (items : option (list Item)) :
  periodEnd_of items = None <-> forall e, ~ counted_end items e.
Proof.
  destruct items as [[|it data]|].
  - split; [|done]. intros _ e (d & i & [= <-] & Hin & _). inversion Hin.
  - rewrite periodEnd_of_cons.
    destruct (filter_Boolean (map item_current_period_end (it :: data)))
      as [|e es] eqn:Hf.
    + split; [|done]. intros _ e Hc.
      apply counted_end_filter in Hc. rewrite Hf in Hc. inversion Hc.
    + split; [done|]. intros Hno. exfalso. apply (Hno e).
      apply counted_end_filter. rewrite Hf. left.
  - split; [|done]. intros _ e (d & i & [=] & _).
Qed.

Lemma periodEnd_of_some (items : option (list Item)) (p : Z) :
  periodEnd_of items = Some p ->
  counted_end items p /\ forall e, counted_end items e -> p <= e.
Proof.
  destruct items as [[|it data]|]; try done.
  rewrite periodEnd_of_cons.
  destruct (filter_Boolean (map item_current_period_end (it :: data)))
    as [|e es] eqn:Hf; [done|].
  intros [= <-]. split.
  - apply counted_end_filter. rewrite Hf. apply Math_min_elem.
  - intros x Hx. apply counted_end_filter in Hx.
    rewrite Hf in Hx. by apply Math_min_lower.
Qed.

Lemma subscriptionEndDate_of_periodEnd (items : option (list Item)) :
  subscriptionEndDate_of items =
  match periodEnd_of items with
  | Some p => iso_of_epoch p
  | None => Ok JNull
  end.
Proof.
  unfold subscriptionEndDate_of.
  destruct (periodEnd_of items) as [p|] eqn:Hp; [|done].
  apply periodEnd_of_some in Hp as [(_ & _ & _ & _ & _ & Hne) _].
  simpl. destruct (Z.eqb_spec p 0); done.
Qed.

(** ** The store updater *)

Lemma written_same (w : World) : written w w = [].
Proof. unfold written. by rewrite drop_all. Qed.

Lemma local_status_cancelled (status : string) :
  local_status status = JStr "cancelled" <-> status = "canceled"%string.
Proof.
  unfold local_status, object_get, statusMap.
  rewrite !lookup_insert, lookup_singleton.
  repeat case_decide; subst; simpl;
    try case_bool_decide; simpl; split; congruence.
Qed.

Section UpdaterFacts.

Variable accepts : Store -> string -> Document -> bool.

Lemma writes_updateUserSubscription (userId : option string)
    (data : Fields) (w : World) :
  writes (updateUserSubscription accepts userId data w) =
  writes w ++ (if truthy userId then [(default "" userId, data)] else []).
Proof.
  unfold updateUserSubscription.
  destruct (truthy userId); simpl; [|by rewrite app_nil_r].
  destruct (firestore_update _ _ _ _); done.
Qed.

Lemma written_updateUserSubscription (userId : option string)
    (data : Fields) (w : World) :
  written w (updateUserSubscription accepts userId data w) =
  if truthy userId then [(default "" userId, data)] else [].
Proof.
  unfold written. rewrite writes_updateUserSubscription.
  by rewrite drop_app_length.
Qed.

Lemma db_updateUserSubscription (userId : string) (data : Fields) (w : World) :
  userId <> ""%string ->
  db (updateUserSubscription accepts (Some userId) data w) =
  if accepts (db w) userId {[ "subscriptionData" := MapValue data ]}
  then <[ userId := {[ "subscriptionData" := MapValue data ]}
                    ∪ default ∅ (db w !! userId) ]> (db w)
  else db w.
Proof.
  intros Hne. unfold updateUserSubscription, firestore_update. simpl.
  destruct (String.eqb_spec userId ""); [done|]. simpl.
  destruct (accepts _ _ _); done.
Qed.

(** An accepted update puts the given object in the place of the
    stored [subscriptionData]. *)
Lemma stored_after_update (userId : string) (data : Fields) (w : World) :
  userId <> ""%string ->
  accepts (db w) userId {[ "subscriptionData" := MapValue data ]} = true ->
  stored_subscriptionData
    (db (updateUserSubscription accepts (Some userId) data w)) userId
  = Some data.
Proof.
  intros Hne Hacc. rewrite db_updateUserSubscription, Hacc by done.
  unfold stored_subscriptionData. rewrite lookup_insert_eq.
  rewrite (lookup_union_Some_l _ _ _ (MapValue data)); [done|].
  apply lookup_singleton_eq.
Qed.

(** The other fields of the document, and the other documents, stay. *)
Lemma update_keeps_other_fields (userId : string) (data : Fields)
    (w : World) (doc : Document) (field : string) :
  db w !! userId = Some doc ->
  field <> "subscriptionData"%string ->
  db (updateUserSubscription accepts (Some userId) data w) !! userId
    ≫= (.!! field) = doc !! field.
Proof.
  intros Hdoc Hfield.
  assert (Some doc ≫= (.!! field) = doc !! field) as Hsame by done.
  unfold updateUserSubscription, firestore_update. simpl.
  destruct (negb (negb _)); simpl; [by rewrite Hdoc|].
  destruct (accepts _ _ _); simpl; [|by rewrite Hdoc].
  rewrite lookup_insert_eq, Hdoc. simpl.
  rewrite lookup_union_r; [done|]. by apply lookup_singleton_ne.
Qed.

Lemma update_keeps_other_documents (userId : option string) (data : Fields)
    (w : World) (other : string) :
  userId <> Some other ->
  db (updateUserSubscription accepts userId data w) !! other = db w !! other.
Proof.
  intros Hother. unfold updateUserSubscription, firestore_update.
  destruct userId as [id|]; simpl; [|done].
  destruct (negb (negb _)); simpl; [done|].
  destruct (accepts _ _ _); simpl; [|done].
  apply lookup_insert_ne. congruence.
Qed.

(** Updating twice with the same object is updating once. *)
Lemma db_update_twice (userId : option string) (data : Fields) (w : World) :
  db (updateUserSubscription accepts userId data
        (updateUserSubscription accepts userId data w))
  = db (updateUserSubscription accepts userId data w).
Proof.
  destruct userId as [id|]; [|done].
  destruct (decide (id = ""%string)) as [-> | Hne]; [done|].
  rewrite !db_updateUserSubscription by done.
  destruct (accepts (db w) id _) eqn:Hacc.
  - rewrite lookup_insert_eq. simpl.
    rewrite insert_insert_eq, (assoc (∪)), (idemp (∪)).
    by destruct (accepts (<[_:=_]> _) _ _).
  - by rewrite Hacc.
Qed.

End UpdaterFacts.

(** ** What the webhook writes *)

Section WebhookFacts.

Variable accepts : Store -> string -> Document -> bool.

Lemma elem_of_written_update (userId : option string) (data : Fields)
    (w : World) (id : string) (data' : Fields) :
  (id, data') ∈ written w (updateUserSubscription accepts userId data w) ->
  userId = Some id /\ id <> ""%string /\ data' = data.
Proof.
  rewrite written_updateUserSubscription.
  destruct userId as [u|]; simpl; [|by rewrite elem_of_nil].
  destruct (String.eqb_spec u ""); simpl; [by rewrite elem_of_nil|].
  rewrite list_elem_of_singleton. intros [= -> ->]. done.
Qed.

(** Every object the webhook passes to the store comes from one of
    four branches, with the user id and the fields of that branch. *)
Lemma webhook_written (stripe : Stripe) (body : string) (sig : option string)
    (w : World) (event : Event) (id : string) (data : Fields) :
  webhooks_constructEvent stripe body sig = Ok event ->
  (id, data) ∈ written w (webhook accepts stripe body sig w).2 ->
  match event with
  | CheckoutSessionCompleted session =>
      exists subscriptionId metadata subscription endDate,
        ses_subscription session = Some subscriptionId
        /\ ses_metadata session = Some metadata
        /\ md_userId metadata = Some id
        /\ subscriptions_retrieve stripe subscriptionId = Ok subscription
        /\ subscriptionEndDate_of (sub_items subscription) = Ok endDate
        /\ data = {[ "status" := JStr "active";
                     "plan" := js_of_opt (md_plan metadata);
                     "customerId" := js_of_nullable (ses_customer session);
                     "subscriptionId" := JStr subscriptionId;
                     "subscriptionEndDate" := endDate ]}
  | CustomerSubscriptionUpdated updatedSub =>
      exists metadata endDate,
        sub_metadata updatedSub = Some metadata
        /\ md_userId metadata = Some id
        /\ subscriptionEndDate_of (sub_items updatedSub) = Ok endDate
        /\ data = {[ "status" := local_status (sub_status updatedSub);
                     "subscriptionEndDate" := endDate ]}
  | CustomerSubscriptionDeleted canceledSub =>
      exists metadata,
        sub_metadata canceledSub = Some metadata
        /\ md_userId metadata = Some id
        /\ data = {[ "status" := JStr "cancelled";
                     "subscriptionEndDate" := JNull ]}
  | InvoicePaymentFailed failedInvoice =>
      exists subscriptionId subscription metadata endDate,
        inv_subscription failedInvoice = Some subscriptionId
        /\ subscriptions_retrieve stripe subscriptionId = Ok subscription
        /\ sub_metadata subscription = Some metadata
        /\ md_userId metadata = Some id
        /\ subscriptionEndDate_of (sub_items subscription) = Ok endDate
        /\ data = {[ "status" := JStr "expired";
                     "subscriptionEndDate" := endDate ]}
  | InvoicePaymentSucceeded _ | OtherEvent _ => False
  end.
Proof.
  intros Hev. unfold webhook. rewrite Hev.
  destruct event; simpl; repeat case_match; simplify_eq; simpl;
    rewrite ?written_same, ?elem_of_nil; try done;
    intros (Hid & Hne & ->)%elem_of_written_update;
    eauto 10.
Qed.

(** A [customer.subscription.updated] event for a real user id, whose
    period end converts, is written with the mapped status. *)
Lemma webhook_updated (stripe : Stripe) (body : string) (sig : option string)
    (w : World) (updatedSub : Subscription) (metadata : Metadata)
    (userId : string) (endDate : JsVal) :
  webhooks_constructEvent stripe body sig
    = Ok (CustomerSubscriptionUpdated updatedSub) ->
  sub_metadata updatedSub = Some metadata ->
  md_userId metadata = Some userId ->
  userId <> ""%string ->
  userId <> "pending"%string ->
  subscriptionEndDate_of (sub_items updatedSub) = Ok endDate ->
  webhook accepts stripe body sig w =
  (res_json BReceived,
   updateUserSubscription accepts (Some userId)
     {[ "status" := local_status (sub_status updatedSub);
        "subscriptionEndDate" := endDate ]} w).
Proof.
  intros Hev Hmd Hid Hne Hpending Hend.
  unfold webhook. rewrite Hev. simpl. rewrite Hmd, Hid, Hend. simpl.
  destruct (String.eqb_spec userId ""); [done|].
  rewrite bool_decide_false by congruence. done.
Qed.

(** A [customer.subscription.deleted] event with a user id. *)
Lemma webhook_deleted (stripe : Stripe) (body : string) (sig : option string)
    (w : World) (canceledSub : Subscription) (metadata : Metadata)
    (userId : string) :
  webhooks_constructEvent stripe body sig
    = Ok (CustomerSubscriptionDeleted canceledSub) ->
  sub_metadata canceledSub = Some metadata ->
  md_userId metadata = Some userId ->
  userId <> ""%string ->
  webhook accepts stripe body sig w =
  (res_json BReceived,
   updateUserSubscription accepts (Some userId)
     {[ "status" := JStr "cancelled"; "subscriptionEndDate" := JNull ]} w).
Proof.
  intros Hev Hmd Hid Hne.
  unfold webhook. rewrite Hev. simpl. rewrite Hmd, Hid. simpl.
  destruct (String.eqb_spec userId ""); done.
Qed.

End WebhookFacts.

(** ** Where the period end is derived *)

(** [/restore-subscription], once a subscription with a first line item
    is found: its [current_period_end] is the derived end date. *)
Lemma restore_subscription_found (stripe : Stripe) (userId email : option string)
    (customer : Customer) (others : list Customer)
    (subscription : Subscription) (others' : list Subscription)
    (item0 : Item) (items : list Item) :
  customers_list stripe email = Ok (customer :: others) ->
  subscriptions_list stripe (cus_id customer) = Ok (subscription :: others') ->
  sub_items subscription = Some (item0 :: items) ->
  match subscriptionEndDate_of (sub_items subscription) with
  | Ok endDate =>
      exists summary,
        restore_subscription stripe userId email
          = res_json (BSubscription (Some summary))
        /\ sum_current_period_end summary = endDate
  | Throw message =>
      restore_subscription stripe userId email
      = res_status_json 500
          (BError "Failed to check subscription" (Some message))
  end.
Proof.
  intros Hc Hs Hi. unfold restore_subscription. rewrite Hc, Hs, Hi.
  rewrite <- Hi. destruct (subscriptionEndDate_of _); [|done].
  eexists. split; [reflexivity|]. done.
Qed.

(** The three webhook branches that derive a period end write it as
    [subscriptionEndDate]; the deletion branch writes null. *)
Lemma webhook_written_end_date
    (accepts : Store -> string -> Document -> bool) (stripe : Stripe)
    (body : string) (sig : option string) (w : World) (event : Event)
    (id : string) (data : Fields) :
  webhooks_constructEvent stripe body sig = Ok event ->
  (id, data) ∈ written w (webhook accepts stripe body sig w).2 ->
  match event with
  | CustomerSubscriptionDeleted _ => data !! "subscriptionEndDate" = Some JNull
  | _ =>
      exists subscription endDate,
        subscription_of_event stripe event = Some subscription
        /\ subscriptionEndDate_of (sub_items subscription) = Ok endDate
        /\ data !! "subscriptionEndDate" = Some endDate
  end.
Proof.
  intros Hev Hin. pose proof (webhook_written _ _ _ _ _ _ _ _ Hev Hin) as H.
  destruct event; try done.
  - destruct H as (sid & md & sub & endDate & Hs & _ & _ & Hr & Hend & ->).
    exists sub, endDate. simpl. rewrite Hs, Hr. split; [done|]. split; [done|].
    rewrite !lookup_insert_ne by done. apply lookup_singleton_eq.
  - destruct H as (md & endDate & _ & _ & Hend & ->).
    exists updatedSub, endDate. split; [done|]. split; [done|].
    rewrite lookup_insert_ne by done. apply lookup_singleton_eq.
  - destruct H as (md & _ & _ & ->).
    rewrite lookup_insert_ne by done. apply lookup_singleton_eq.
  - destruct H as (sid & sub & md & endDate & Hs & Hr & _ & _ & Hend & ->).
    exists sub, endDate. simpl. rewrite Hs, Hr. split; [done|]. split; [done|].
    rewrite lookup_insert_ne by done. apply lookup_singleton_eq.
Qed.

Lemma filter_Boolean_zero_as_missing (data : list Item) :
  filter_Boolean (map item_current_period_end (map zero_as_missing data))
  = filter_Boolean (map item_current_period_end data).
Proof.
  induction data as [|item data IH]; [done|].
  simpl. rewrite IH.
  destruct (item_current_period_end item) as [[|p|p]|]; done.
Qed.

(** ** The derived period end *)

(** C4 (counterexample). A single line item with period end 0 has a
    present period end, the least one, whose ISO-8601 form is
    [1970-01-01T00:00:00.000Z]; the derived end date is null.  With
    period ends 0 and 100 the derived end date is that of epoch 100, not
    of the least present epoch 0. *)
Lemma zero_period_end_not_least_present :
  present_end (Some [item_ending (Some 0)]) 0
  /\ (forall e, present_end (Some [item_ending (Some 0)]) e -> 0 <= e)
  /\ iso_of_epoch 0 = Ok (JStr "1970-01-01T00:00:00.000Z")
  /\ spec_subscriptionEndDate (Some [item_ending (Some 0)])
     = Ok (JStr "1970-01-01T00:00:00.000Z")
  /\ subscriptionEndDate_of (Some [item_ending (Some 0)]) = Ok JNull
  /\ spec_subscriptionEndDate (Some (map item_ending [Some 0; Some 100]))
     = Ok (JStr "1970-01-01T00:00:00.000Z")
  /\ subscriptionEndDate_of (Some (map item_ending [Some 0; Some 100]))
     = Ok (JStr "1970-01-01T00:01:40.000Z").
Proof.
  split.
  { exists [item_ending (Some 0)], (item_ending (Some 0)).
    split; [done|]. split; [left | done]. }
  split.
  { intros e (data & it & [= <-] & Hin & Heq).
    apply list_elem_of_singleton in Hin. subst it. simpl in Heq. by simplify_eq. }
  repeat split; reflexivity.
Qed.

(** C4 (as amended). For every list of line items the derived period
    end is the least of the period ends that are neither missing nor
    zero, converted to ISO-8601 by [toISOString], and it is null when no
    line item has such a period end.  Period ends 100, 50 and null give
    epoch 50, and line items that all lack a period end give null.  The
    restore endpoint returns the value so derived, and the checkout,
    update and failed-payment branches of the webhook write it. *)
Theorem subscriptionEndDate_least_counted_end :
  (forall items : option (list Item),
     (forall e, ~ counted_end items e) /\ subscriptionEndDate_of items = Ok JNull
     \/ exists p, counted_end items p
               /\ (forall e, counted_end items e -> p <= e)
               /\ subscriptionEndDate_of items = iso_of_epoch p)
  /\ periodEnd_of (Some (map item_ending [Some 100; Some 50; None])) = Some 50
  /\ subscriptionEndDate_of (Some (map item_ending [Some 100; Some 50; None]))
     = Ok (JStr "1970-01-01T00:00:50.000Z")
  /\ (forall n, subscriptionEndDate_of (Some (map item_ending (replicate n None)))
                = Ok JNull)
  /\ (forall stripe userId email customer others subscription others' item0 items,
        customers_list stripe email = Ok (customer :: others) ->
        subscriptions_list stripe (cus_id customer) = Ok (subscription :: others') ->
        sub_items subscription = Some (item0 :: items) ->
        match subscriptionEndDate_of (sub_items subscription) with
        | Ok endDate =>
            exists summary,
              restore_subscription stripe userId email
                = res_json (BSubscription (Some summary))
              /\ sum_current_period_end summary = endDate
        | Throw message =>
            restore_subscription stripe userId email
            = res_status_json 500
                (BError "Failed to check subscription" (Some message))
        end)
  /\ (forall accepts stripe body sig w event id data,
        webhooks_constructEvent stripe body sig = Ok event ->
        (id, data) ∈ written w (webhook accepts stripe body sig w).2 ->
        match event with
        | CustomerSubscriptionDeleted _ =>
            data !! "subscriptionEndDate" = Some JNull
        | _ =>
            exists subscription endDate,
              subscription_of_event stripe event = Some subscription
              /\ subscriptionEndDate_of (sub_items subscription) = Ok endDate
              /\ data !! "subscriptionEndDate" = Some endDate
        end).
Proof.
  split; [|split; [reflexivity | split; [reflexivity | split; [|split]]]].
  - intros items. rewrite subscriptionEndDate_of_periodEnd.
    destruct (periodEnd_of items) as [p|] eqn:Hp.
    + right. exists p. apply periodEnd_of_some in Hp as [Hin Hle]. auto.
    + left. split; [|done]. by apply periodEnd_of_none.
  - intros n. rewrite subscriptionEndDate_of_periodEnd.
    replace (periodEnd_of _) with (@None Z); [done|].
    symmetry. apply periodEnd_of_none.
    intros e (data & it & [= <-] & Hin & Heq & _).
    apply list_elem_of_fmap in Hin as (v & -> & Hv).
    apply elem_of_replicate in Hv as [-> _]. done.
  - intros. by eapply restore_subscription_found.
  - intros. by eapply webhook_written_end_date.
Qed.

(** C10. A line item whose [current_period_end] is 0 counts as one
    without a period end: reading every such item as missing does not
    change the derived end date, and a subscription whose only item ends
    at epoch 0 derives null, not the ISO-8601 form of epoch 0.  So it is
    in the restore endpoint, whose response then has a null
    [current_period_end], and in the checkout, update and failed-payment
    branches of the webhook, which then write a null
    [subscriptionEndDate]. *)
Theorem zero_period_end_treated_as_missing :
  (forall data : list Item,
     subscriptionEndDate_of (Some (map zero_as_missing data))
     = subscriptionEndDate_of (Some data))
  /\ (forall item : Item,
        item_current_period_end item = Some 0 ->
        subscriptionEndDate_of (Some [item]) = Ok JNull
        /\ iso_of_epoch 0 = Ok (JStr "1970-01-01T00:00:00.000Z"))
  /\ (forall stripe userId email customer others subscription others' item,
        customers_list stripe email = Ok (customer :: others) ->
        subscriptions_list stripe (cus_id customer) = Ok (subscription :: others') ->
        sub_items subscription = Some [item] ->
        item_current_period_end item = Some 0 ->
        exists summary,
          restore_subscription stripe userId email
            = res_json (BSubscription (Some summary))
          /\ sum_current_period_end summary = JNull)
  /\ (forall accepts stripe body sig w event subscription item id data,
        webhooks_constructEvent stripe body sig = Ok event ->
        subscription_of_event stripe event = Some subscription ->
        sub_items subscription = Some [item] ->
        item_current_period_end item = Some 0 ->
        (id, data) ∈ written w (webhook accepts stripe body sig w).2 ->
        data !! "subscriptionEndDate" = Some JNull)
  /\ written world_u1
       (after_event (CustomerSubscriptionUpdated
                       (sub_of "active" (Some "u1"%string) [Some 0])))
     = [("u1"%string,
         {[ "status" := JStr "active"; "subscriptionEndDate" := JNull ]})].
Proof.
  assert (forall item : Item,
            item_current_period_end item = Some 0 ->
            subscriptionEndDate_of (Some [item]) = Ok JNull) as Hzero.
  { intros item Hitem. unfold subscriptionEndDate_of, periodEnd_of.
    simpl. by rewrite Hitem. }
  split; [|split; [|split; [|split]]].
  - intros data. rewrite !subscriptionEndDate_of_periodEnd.
    destruct data as [|item data]; [done|].
    change (map zero_as_missing (item :: data))
      with (zero_as_missing item :: map zero_as_missing data).
    rewrite !periodEnd_of_cons.
    change (zero_as_missing item :: map zero_as_missing data)
      with (map zero_as_missing (item :: data)).
    by rewrite filter_Boolean_zero_as_missing.
  - intros item Hitem. split; [by apply Hzero | reflexivity].
  - intros stripe userId email customer others subscription others' item
      Hc Hs Hi Hitem.
    pose proof (restore_subscription_found stripe userId email _ _ _ _ _ _
                  Hc Hs Hi) as H.
    rewrite Hi, (Hzero item Hitem) in H. exact H.
  - intros accepts stripe body sig w event subscription item id data
      Hev Hsub Hi Hitem Hin.
    pose proof (webhook_written_end_date _ _ _ _ _ _ _ _ Hev Hin) as H.
    destruct event; try done;
      destruct H as (sub' & endDate & Hsub' & Hend & ->);
      rewrite Hsub in Hsub'; simplify_eq;
      rewrite Hi, (Hzero item Hitem) in Hend; by simplify_eq.
  - vm_compute. reflexivity.
Qed.

(** ** Cancelled status and the end date *)

(** C1 (counterexample). A [customer.subscription.updated] event with
    provider status [canceled] and one line item ending at epoch 100 is
    written, and stored, with status [cancelled] and an end date that is
    not null. *)
Lemma updated_canceled_keeps_end_date :
  exists data,
    written world_u1 (after_event (updated_u1 "canceled")) = [("u1"%string, data)]
    /\ stored_subscriptionData (db (after_event (updated_u1 "canceled"))) "u1" = Some data
    /\ data !! "status" = Some (JStr "cancelled")
    /\ data !! "subscriptionEndDate" = Some (JStr "1970-01-01T00:01:40.000Z")
    /\ data !! "subscriptionEndDate" <> Some JNull.
Proof.
  exists {[ "status" := JStr "cancelled";
            "subscriptionEndDate" := JStr "1970-01-01T00:01:40.000Z" ]}.
  repeat split; try (vm_compute; reflexivity). discriminate.
Qed.

(** C1 (as amended). The [customer.subscription.deleted] branch and the
    cancel-subscription endpoint write status [cancelled] with a null
    [subscriptionEndDate]; the [checkout.session.completed] and
    [invoice.payment_failed] branches never write status [cancelled]; the
    [customer.subscription.updated] branch writes status [cancelled]
    exactly when the provider status is [canceled], and always with the
    end date derived from the line items' period ends. *)
Theorem cancelled_written_end_date
    (accepts : Store -> string -> Document -> bool) (stripe : Stripe)
    (body : string) (sig userId subscriptionId : option string) (w : World)
    (event : Event) (id : string) (data : Fields) :
  (webhooks_constructEvent stripe body sig = Ok event ->
   (id, data) ∈ written w (webhook accepts stripe body sig w).2 ->
   match event with
   | CustomerSubscriptionUpdated updatedSub =>
       (data !! "status" = Some (JStr "cancelled")
        <-> sub_status updatedSub = "canceled"%string)
       /\ exists endDate,
            subscriptionEndDate_of (sub_items updatedSub) = Ok endDate
            /\ data !! "subscriptionEndDate" = Some endDate
   | CustomerSubscriptionDeleted _ =>
       data !! "status" = Some (JStr "cancelled")
       /\ data !! "subscriptionEndDate" = Some JNull
   | _ => data !! "status" <> Some (JStr "cancelled")
   end)
  /\ ((id, data) ∈ written w
        (cancel_subscription accepts stripe userId subscriptionId w).2 ->
      data !! "status" = Some (JStr "cancelled")
      /\ data !! "subscriptionEndDate" = Some JNull).
Proof.
  split.
  - intros Hev Hin. pose proof (webhook_written _ _ _ _ _ _ _ _ Hev Hin) as H.
    destruct event; try done.
    + destruct H as (? & ? & ? & ? & _ & _ & _ & _ & _ & ->).
      by rewrite lookup_insert_eq.
    + destruct H as (md & endDate & _ & _ & Hend & ->). split.
      * rewrite lookup_insert_eq, <- local_status_cancelled.
        split; congruence.
      * exists endDate. split; [done|].
        rewrite lookup_insert_ne by done. apply lookup_singleton_eq.
    + destruct H as (md & _ & _ & ->). split.
      * apply lookup_insert_eq.
      * rewrite lookup_insert_ne by done. apply lookup_singleton_eq.
    + destruct H as (? & ? & ? & ? & _ & _ & _ & _ & _ & ->).
      by rewrite lookup_insert_eq.
  - unfold cancel_subscription.
    destruct (negb (truthy userId) || negb (truthy subscriptionId)); simpl.
    { by rewrite written_same, elem_of_nil. }
    destruct (subscriptions_cancel _ _); simpl.
    + intros (_ & _ & ->)%elem_of_written_update. split.
      * apply lookup_insert_eq.
      * rewrite lookup_insert_ne by done. apply lookup_singleton_eq.
    + by rewrite written_same, elem_of_nil.
Qed.

(** ** The stored sub-document after a write *)

(** C2 (the code at the failing input). Family [u1] has a stored
    subscription with plan, customer id and subscription id.  After a
    [customer.subscription.deleted] event for [u1] the stored
    [subscriptionData] is exactly the two fields written: the plan, the
    customer id and the subscription id are gone, while the family name,
    a field of the document itself, is kept. *)
Theorem deleted_event_replaces_subscriptionData :
  written world_u1 (after_event deleted_u1) = [("u1"%string, cancelled_data)]
  /\ stored_subscriptionData (db world_u1) "u1" ≫= (.!! "plan")
     = Some (JStr "monthly")
  /\ stored_subscriptionData (db (after_event deleted_u1)) "u1" = Some cancelled_data
  /\ stored_subscriptionData (db (after_event deleted_u1)) "u1" ≫= (.!! "plan") = None
  /\ stored_subscriptionData (db (after_event deleted_u1)) "u1" ≫= (.!! "customerId") = None
  /\ stored_subscriptionData (db (after_event deleted_u1)) "u1" ≫= (.!! "subscriptionId") = None
  /\ db (after_event deleted_u1) !! "u1" ≫= (.!! "familyName") = Some (Scalar (JStr "Hen House")).
Proof. repeat split; vm_compute; reflexivity. Qed.

(** ** Provider status to local status *)


Lemma local_status_image (status : string) :
  (status = "active"%string -> local_status status = JStr "active")
  /\ (status = "past_due"%string -> local_status status = JStr "expired")
  /\ (status = "canceled"%string -> local_status status = JStr "cancelled")
  /\ (status = "unpaid"%string -> local_status status = JStr "expired")
  /\ (statusMap !! status = None ->
      status ∉ Object_prototype_members ->
      local_status status = JStr "expired").
Proof.
  repeat split; try (intros ->; reflexivity).
  intros Hnone Hproto. unfold local_status, object_get.
  rewrite Hnone. by rewrite bool_decide_false.
Qed.

(** Where the default does work.  For a [customer.subscription.updated]
    event whose [metadata.userId] is present and not [pending], and whose
    period end converts, exactly one object is written, for that user,
    and its status is the image of the provider status: [active] for
    [active], [expired] for [past_due], [cancelled] for [canceled],
    [expired] for [unpaid], and [expired] for every status that is
    neither a key of the map nor the name of a member inherited from
    [Object.prototype]. *)
Theorem updated_event_status
    (accepts : Store -> string -> Document -> bool) (stripe : Stripe)
    (body : string) (sig : option string) (w : World)
    (updatedSub : Subscription) (metadata : Metadata) (userId : string)
    (endDate : JsVal) :
  webhooks_constructEvent stripe body sig
    = Ok (CustomerSubscriptionUpdated updatedSub) ->
  sub_metadata updatedSub = Some metadata ->
  md_userId metadata = Some userId ->
  userId <> ""%string ->
  userId <> "pending"%string ->
  subscriptionEndDate_of (sub_items updatedSub) = Ok endDate ->
  let status := sub_status updatedSub in
  exists written_status,
    written w (webhook accepts stripe body sig w).2
      = [(userId, {[ "status" := written_status;
                     "subscriptionEndDate" := endDate ]})]
    /\ (status = "active"%string -> written_status = JStr "active")
    /\ (status = "past_due"%string -> written_status = JStr "expired")
    /\ (status = "canceled"%string -> written_status = JStr "cancelled")
    /\ (status = "unpaid"%string -> written_status = JStr "expired")
    /\ (statusMap !! status = None ->
        status ∉ Object_prototype_members ->
        written_status = JStr "expired").
Proof.
  intros Hev Hmd Hid Hne Hpending Hend status.
  exists (local_status status). split; [|apply local_status_image].
  rewrite (webhook_updated _ _ _ _ _ _ _ _ _ Hev Hmd Hid Hne Hpending Hend).
  simpl. rewrite written_updateUserSubscription. simpl.
  by destruct (String.eqb_spec userId "").
Qed.

Lemma updated_event_status_witness :
  exists written_status,
    written world_u1
      (webhook accepts_existing (delivering (updated_u1 "unknown_status"))
         "{}" None world_u1).2
      = [("u1"%string,
          {[ "status" := written_status;
             "subscriptionEndDate" := JStr "1970-01-01T00:01:40.000Z" ]})]
    /\ ("unknown_status" = "active" -> written_status = JStr "active")
    /\ ("unknown_status" = "past_due" -> written_status = JStr "expired")
    /\ ("unknown_status" = "canceled" -> written_status = JStr "cancelled")
    /\ ("unknown_status" = "unpaid" -> written_status = JStr "expired")
    /\ (statusMap !! "unknown_status" = None ->
        "unknown_status" ∉ Object_prototype_members ->
        written_status = JStr "expired").
Proof.
  apply (updated_event_status accepts_existing
           (delivering (updated_u1 "unknown_status")) "{}" None
           world_u1 (sub_of "unknown_status" (Some "u1"%string) [Some 100])
           {| md_userId := Some "u1"%string; md_plan := Some "monthly"%string |}
           "u1" (JStr "1970-01-01T00:01:40.000Z"));
    first [reflexivity | discriminate].
Defined.

(** ** The signature gate *)

(** C5. When the signature of a webhook request does not verify, that
    is, when [constructEvent] throws, the response has status 400 and
    carries the error message, and the world is as before: no update is
    sent to the store and the store is unchanged, whatever event the body
    describes. *)
Theorem webhook_rejects_bad_signature
    (accepts : Store -> string -> Document -> bool) (stripe : Stripe)
    (body : string) (sig : option string) (w : World) (message : string) :
  webhooks_constructEvent stripe body sig = Throw message ->
  webhook accepts stripe body sig w
  = ({| res_status := 400;
        res_body := BText (String.append "Webhook Error: " message) |}, w).
Proof. intros Hsig. unfold webhook. by rewrite Hsig. Qed.

Lemma webhook_rejects_bad_signature_witness :
  webhook accepts_existing no_stripe "{}" (Some "t=1,v1=0"%string) world_u1
  = ({| res_status := 400;
        res_body := BText "Webhook Error: No signatures found matching the expected signature for payload" |},
     world_u1).
Proof.
  apply (webhook_rejects_bad_signature accepts_existing no_stripe "{}"
           (Some "t=1,v1=0"%string) world_u1
           "No signatures found matching the expected signature for payload").
  reflexivity.
Defined.

(** ** Verify-payment *)

(** C6. Without an email the request fails with 400.  With one, and with
    the provider answering, the answer is [hasValidPayment: false] when
    no customer matches, when the customer has no active subscription,
    and when the subscription found has a period end before the current
    time in epoch seconds; it is [hasValidPayment: true] otherwise. *)
Theorem verify_payment_outcomes (stripe : Stripe) (nowMs : Z)
    (email : option string) :
  let answer := verify_payment stripe nowMs email in
  (truthy email = false ->
   answer = res_status_json 400 (BError "Email is required" None))
  /\ (truthy email = true ->
      (customers_list stripe email = Ok [] ->
       answer = res_json (BHasValidPayment false))
      /\ forall customer others,
           customers_list stripe email = Ok (customer :: others) ->
           (subscriptions_list stripe (cus_id customer) = Ok [] ->
            answer = res_json (BHasValidPayment false))
           /\ forall subscription others',
                subscriptions_list stripe (cus_id customer)
                  = Ok (subscription :: others') ->
                ((exists e, sub_current_period_end subscription = Some e
                            /\ e < nowMs / 1000) ->
                 answer = res_json (BHasValidPayment false))
                /\ (~ (exists e, sub_current_period_end subscription = Some e
                                 /\ e < nowMs / 1000) ->
                    answer = res_json (BHasValidPayment true))).
Proof.
  intros answer. subst answer. unfold verify_payment. split.
  - intros ->. done.
  - intros ->. simpl. split.
    + intros ->. done.
    + intros customer others ->. split.
      * intros ->. done.
      * intros subscription others' ->. simpl.
        destruct (sub_current_period_end subscription) as [e|]; simpl.
        -- destruct (Z.ltb_spec e (nowMs / 1000)); split; try done.
           ++ intros Hno. exfalso. apply Hno. eauto.
           ++ intros (e' & [= <-] & Hlt). lia.
        -- split; [|done]. intros (e & [=] & _).
Qed.

Example verify_payment_elapsed :
  verify_payment (listing [sub_until (Some 100)]) 200500 (Some "a@farm.test"%string)
  = res_json (BHasValidPayment false).
Proof. reflexivity. Qed.

Example verify_payment_running :
  verify_payment (listing [sub_until (Some 300)]) 200500 (Some "a@farm.test"%string)
  = res_json (BHasValidPayment true).
Proof. reflexivity. Qed.

Example verify_payment_same_second :
  verify_payment (listing [sub_until (Some 200)]) 200500 (Some "a@farm.test"%string)
  = res_json (BHasValidPayment true).
Proof. reflexivity. Qed.

Example verify_payment_no_period_end :
  verify_payment (listing [sub_until None]) 200500 (Some "a@farm.test"%string)
  = res_json (BHasValidPayment true).
Proof. reflexivity. Qed.

Example verify_payment_no_subscription :
  verify_payment (listing []) 200500 (Some "a@farm.test"%string)
  = res_json (BHasValidPayment false).
Proof. reflexivity. Qed.

Example verify_payment_no_email :
  verify_payment (listing [sub_until (Some 300)]) 200500 None
  = res_status_json 400 (BError "Email is required" None)
  /\ verify_payment (listing [sub_until (Some 300)]) 200500 (Some ""%string)
     = res_status_json 400 (BError "Email is required" None).
Proof. split; reflexivity. Qed.

Example verify_payment_provider_failure :
  verify_payment no_stripe 200500 (Some "a@farm.test"%string)
  = res_status_json 500 (BError "Failed to verify payment" (Some "connection refused"%string)).
Proof. reflexivity. Qed.

(** ** Restore-subscription *)

(** C9. Two restore-subscription requests with the same email, answered
    from the same provider state (the same customer lookup for that email
    and the same listing of active subscriptions), get the same response
    whatever their user ids. *)
Theorem restore_subscription_ignores_userId (stripe1 stripe2 : Stripe)
    (userId1 userId2 email : option string) :
  customers_list stripe1 email = customers_list stripe2 email ->
  (forall customer,
     subscriptions_list stripe1 customer = subscriptions_list stripe2 customer) ->
  restore_subscription stripe1 userId1 email
  = restore_subscription stripe2 userId2 email.
Proof.
  intros Hcustomers Hsubscriptions. unfold restore_subscription.
  rewrite Hcustomers.
  destruct (customers_list stripe2 email) as [[|customer others]|]; try done.
  by rewrite Hsubscriptions.
Qed.

Lemma restore_subscription_ignores_userId_witness :
  restore_subscription (listing [sub_until (Some 1700000000)])
    (Some "u1"%string) (Some "a@farm.test"%string)
  = restore_subscription (listing [sub_until (Some 1700000000)])
      None (Some "a@farm.test"%string).
Proof.
  apply (restore_subscription_ignores_userId
           (listing [sub_until (Some 1700000000)])
           (listing [sub_until (Some 1700000000)])
           (Some "u1"%string) None (Some "a@farm.test"%string)).
  - reflexivity.
  - intros customer. reflexivity.
Defined.

Example restore_subscription_found_u1 :
  restore_subscription (listing [sub_until (Some 1700000000)])
    (Some "u1"%string) (Some "a@farm.test"%string)
  = res_json (BSubscription (Some
      {| sum_id := "sub_1"; sum_status := "active"; sum_customer := "cus_1";
         sum_plan := "monthly";
         sum_current_period_end := JStr "2023-11-14T22:13:20.000Z" |})).
Proof. reflexivity. Qed.

Example restore_subscription_none :
  restore_subscription (listing []) None (Some "a@farm.test"%string)
  = res_json (BSubscription None).
Proof. reflexivity. Qed.

(** ** Cancel-subscription *)

(** The two outcomes of the endpoint.  With a user id and a
    subscription id present: when the provider's cancellation fails, the
    response is 500 with the error message and the world is as before, no
    update having been sent to the store; when it succeeds, the response
    reports success with the provider's result, exactly one update has
    been sent, for that user with status [cancelled] and a null
    [subscriptionEndDate], and, the store having carried it out, the
    stored [subscriptionData] has that status and that end date when the
    response is returned. *)
Theorem cancel_subscription_outcomes
    (accepts : Store -> string -> Document -> bool) (stripe : Stripe)
    (userId subscriptionId : string) (w : World) :
  userId <> ""%string ->
  subscriptionId <> ""%string ->
  let result :=
    cancel_subscription accepts stripe (Some userId) (Some subscriptionId) w in
  match subscriptions_cancel stripe subscriptionId with
  | Throw message =>
      result = ({| res_status := 500;
                   res_body := BError "Failed to cancel subscription"
                                 (Some message) |}, w)
  | Ok canceled =>
      result.1 = {| res_status := 200; res_body := BCancelled canceled |}
      /\ written w result.2 = [(userId, cancelled_data)]
      /\ if accepts (db w) userId
              {[ "subscriptionData" := MapValue cancelled_data ]}
         then exists stored,
                stored_subscriptionData (db result.2) userId = Some stored
                /\ stored !! "status" = Some (JStr "cancelled")
                /\ stored !! "subscriptionEndDate" = Some JNull
         else db result.2 = db w
  end.
Proof.
  intros Hu Hs result. subst result. unfold cancel_subscription. simpl.
  destruct (String.eqb_spec userId ""); [done|].
  destruct (String.eqb_spec subscriptionId ""); [done|]. simpl.
  destruct (subscriptions_cancel stripe subscriptionId) as [canceled|m];
    [|done].
  simpl. split; [done|]. split.
  - rewrite written_updateUserSubscription. simpl.
    by destruct (String.eqb_spec userId "").
  - fold cancelled_data.
    destruct (accepts _ _ _) eqn:Hacc.
    + exists cancelled_data. split; [by apply stored_after_update|].
      split; reflexivity.
    + by rewrite db_updateUserSubscription, Hacc.
Qed.

Lemma cancel_subscription_outcomes_witness :
  cancel_subscription accepts_existing no_stripe
    (Some "u1"%string) (Some "sub_1"%string) world_u1
  = ({| res_status := 500;
        res_body := BError "Failed to cancel subscription"
                      (Some "connection refused"%string) |}, world_u1)
  /\ (cancel_subscription accepts_existing (listing [sub_until (Some 100)])
        (Some "u1"%string) (Some "sub_1"%string) world_u1).1
     = {| res_status := 200; res_body := BCancelled (sub_until (Some 100)) |}.
Proof.
  split.
  - apply (cancel_subscription_outcomes accepts_existing no_stripe "u1" "sub_1"
             world_u1); discriminate.
  - assert ("u1" <> ""%string) as Hu by discriminate.
    assert ("sub_1" <> ""%string) as Hs by discriminate.
    exact (proj1 (cancel_subscription_outcomes accepts_existing
                    (listing [sub_until (Some 100)]) "u1" "sub_1" world_u1
                    Hu Hs)).
Defined.

(** C7 (the code at the failing input). Family [u1] has a stored
    subscription with plan, customer id and subscription id.  A
    cancel-subscription request for [u1] that the provider carries out is
    answered with success, after one update with status [cancelled] and
    a null [subscriptionEndDate]; the stored [subscriptionData] is then
    exactly these two fields, not the stored one merged with them: the
    plan, the customer id and the subscription id are gone, the family
    name is kept. *)
Theorem cancel_replaces_subscriptionData :
  (cancel_subscription accepts_existing (listing [sub_until (Some 100)])
     (Some "u1"%string) (Some "sub_1"%string) world_u1).1
  = {| res_status := 200; res_body := BCancelled (sub_until (Some 100)) |}
  /\ written world_u1
       (cancel_subscription accepts_existing (listing [sub_until (Some 100)])
          (Some "u1"%string) (Some "sub_1"%string) world_u1).2
     = [("u1"%string, cancelled_data)]
  /\ stored_subscriptionData (db world_u1) "u1" ≫= (.!! "plan")
     = Some (JStr "monthly")
  /\ stored_subscriptionData
       (db (cancel_subscription accepts_existing (listing [sub_until (Some 100)])
              (Some "u1"%string) (Some "sub_1"%string) world_u1).2) "u1"
     = Some cancelled_data
  /\ stored_subscriptionData
       (db (cancel_subscription accepts_existing (listing [sub_until (Some 100)])
              (Some "u1"%string) (Some "sub_1"%string) world_u1).2) "u1"
       ≫= (.!! "plan") = None
  /\ stored_subscriptionData
       (db (cancel_subscription accepts_existing (listing [sub_until (Some 100)])
              (Some "u1"%string) (Some "sub_1"%string) world_u1).2) "u1"
       ≫= (.!! "customerId") = None
  /\ stored_subscriptionData
       (db (cancel_subscription accepts_existing (listing [sub_until (Some 100)])
              (Some "u1"%string) (Some "sub_1"%string) world_u1).2) "u1"
       ≫= (.!! "subscriptionId") = None
  /\ db (cancel_subscription accepts_existing (listing [sub_until (Some 100)])
           (Some "u1"%string) (Some "sub_1"%string) world_u1).2 !! "u1"
       ≫= (.!! "familyName") = Some (Scalar (JStr "Hen House")).
Proof. repeat split; vm_compute; reflexivity. Qed.

(** ** Replaying a deletion *)

(** C8. For every store and every [customer.subscription.deleted] event
    with a user id, handling the event a second time leaves the store as
    the first handling left it; and where the store carries out the
    update, the stored [subscriptionData] of the user is, after one
    handling as after two, the object with status [cancelled] and a null
    [subscriptionEndDate]. *)
Theorem deleted_event_idempotent
    (accepts : Store -> string -> Document -> bool) (stripe : Stripe)
    (body : string) (sig : option string) (w : World)
    (canceledSub : Subscription) (metadata : Metadata) (userId : string) :
  webhooks_constructEvent stripe body sig
    = Ok (CustomerSubscriptionDeleted canceledSub) ->
  sub_metadata canceledSub = Some metadata ->
  md_userId metadata = Some userId ->
  userId <> ""%string ->
  let once := (webhook accepts stripe body sig w).2 in
  let twice := (webhook accepts stripe body sig once).2 in
  db twice = db once
  /\ (accepts (db w) userId {[ "subscriptionData" := MapValue cancelled_data ]}
      = true ->
      stored_subscriptionData (db once) userId = Some cancelled_data
      /\ stored_subscriptionData (db twice) userId = Some cancelled_data).
Proof.
  intros Hev Hmd Hid Hne once twice. subst twice once.
  rewrite !(webhook_deleted _ _ _ _ _ _ _ _ Hev Hmd Hid Hne). simpl.
  fold cancelled_data.
  assert (db (updateUserSubscription accepts (Some userId) cancelled_data
                (updateUserSubscription accepts (Some userId) cancelled_data w))
          = db (updateUserSubscription accepts (Some userId) cancelled_data w))
    as Htwice by apply db_update_twice.
  split; [done|]. intros Hacc. rewrite Htwice.
  split; by apply stored_after_update.
Qed.

Lemma deleted_event_idempotent_witness :
  db (webhook accepts_existing (delivering deleted_u1) "{}" None
        (webhook accepts_existing (delivering deleted_u1) "{}" None world_u1).2).2
  = db (webhook accepts_existing (delivering deleted_u1) "{}" None world_u1).2
  /\ (accepts_existing (db world_u1) "u1"
        {[ "subscriptionData" := MapValue cancelled_data ]} = true ->
      stored_subscriptionData
        (db (webhook accepts_existing (delivering deleted_u1) "{}" None
               world_u1).2) "u1" = Some cancelled_data
      /\ stored_subscriptionData
           (db (webhook accepts_existing (delivering deleted_u1) "{}" None
                  (webhook accepts_existing (delivering deleted_u1) "{}" None
                     world_u1).2).2) "u1" = Some cancelled_data).
Proof.
  apply (deleted_event_idempotent accepts_existing (delivering deleted_u1)
           "{}" None world_u1
           (sub_of "canceled" (Some "u1"%string) [Some 100])
           {| md_userId := Some "u1"%string; md_plan := Some "monthly"%string |}
           "u1"); first [reflexivity | discriminate].
Defined.

(** * Further properties of the handlers *)

(** ** The shape of a handled request *)

Lemma update_or_same (accepts : Store -> string -> Document -> bool)
    (userId : option string) (data : Fields) (w : World) :
  updateUserSubscription accepts userId data w = w
  \/ exists id data',
       id <> ""%string
       /\ updateUserSubscription accepts userId data w
          = updateUserSubscription accepts (Some id) data' w.
Proof.
  destruct userId as [u|]; [|by left].
  destruct (decide (u = ""%string)) as [-> | Hne]; [by left|].
  right. by exists u, data.
Qed.

(** A webhook request leaves the world as it was or makes one call of
    [updateUserSubscription], for a user id that is not empty. *)
Lemma webhook_world (accepts : Store -> string -> Document -> bool)
    (stripe : Stripe) (body : string) (sig : option string) (w : World) :
  (webhook accepts stripe body sig w).2 = w
  \/ exists id data,
       id <> ""%string
       /\ (webhook accepts stripe body sig w).2
          = updateUserSubscription accepts (Some id) data w.
Proof.
  unfold webhook.
  destruct (webhooks_constructEvent stripe body sig) as [event|]; [|by left].
  destruct (process_event accepts stripe event w) as [w'|] eqn:Hp; [|by left].
  simpl. destruct event; simpl in Hp; repeat case_match; simplify_eq;
    try (by left); apply update_or_same.
Qed.

Lemma cancel_subscription_world (accepts : Store -> string -> Document -> bool)
    (stripe : Stripe) (userId subscriptionId : option string) (w : World) :
  (cancel_subscription accepts stripe userId subscriptionId w).2 = w
  \/ exists id,
       id <> ""%string
       /\ (cancel_subscription accepts stripe userId subscriptionId w).2
          = updateUserSubscription accepts (Some id) cancelled_data w.
Proof.
  unfold cancel_subscription.
  destruct userId as [u|]; simpl; [|by left].
  destruct (String.eqb_spec u ""); simpl; [by left|].
  destruct (negb (truthy subscriptionId)); simpl; [by left|].
  destruct (subscriptions_cancel _ _); simpl; [|by left].
  right. by exists u.
Qed.

(** What one call of the updater keeps of a document. *)
Lemma update_keeps_document (accepts : Store -> string -> Document -> bool)
    (userId : string) (data : Fields) (w : World) (id : string)
    (doc : Document) :
  db w !! id = Some doc ->
  exists doc',
    db (updateUserSubscription accepts (Some userId) data w) !! id = Some doc'
    /\ forall field, field <> "subscriptionData"%string ->
                     doc' !! field = doc !! field.
Proof.
  intros Hdoc.
  destruct (decide (userId = id)) as [-> | Hother].
  - unfold updateUserSubscription, firestore_update. simpl.
    destruct (negb (negb _)); simpl; [by exists doc|].
    destruct (accepts _ _ _); simpl; [|by exists doc].
    rewrite lookup_insert_eq, Hdoc. simpl. eexists. split; [done|].
    intros field Hfield. rewrite lookup_union_r; [done|].
    by apply lookup_singleton_ne.
  - exists doc. split; [|done].
    rewrite update_keeps_other_documents; [done | congruence].
Qed.

Lemma process_event_outcome (accepts1 accepts2 : Store -> string -> Document -> bool)
    (stripe : Stripe) (event : Event) (w1 w2 : World) :
  match process_event accepts1 stripe event w1,
        process_event accepts2 stripe event w2 with
  | Ok _, Ok _ => True
  | Throw m1, Throw m2 => m1 = m2
  | _, _ => False
  end.
Proof.
  destruct event; simpl; repeat case_match; simplify_eq; done.
Qed.

Lemma written_one_update (accepts : Store -> string -> Document -> bool)
    (id : string) (data : Fields) (w : World) :
  id <> ""%string ->
  written w (updateUserSubscription accepts (Some id) data w) = [(id, data)].
Proof.
  intros Hne. rewrite written_updateUserSubscription. simpl.
  by destruct (String.eqb_spec id "").
Qed.

(** ** What the handlers leave alone *)

(** X1. The webhook and the cancel-subscription endpoint never remove a
    document from the store, and in a document that exists they change
    no field other than [subscriptionData]. *)
Theorem handlers_keep_documents
    (accepts : Store -> string -> Document -> bool) (stripe : Stripe)
    (body : string) (sig userId subscriptionId : option string) (w : World)
    (id : string) (doc : Document) :
  db w !! id = Some doc ->
  (exists doc',
     db (webhook accepts stripe body sig w).2 !! id = Some doc'
     /\ forall field, field <> "subscriptionData"%string ->
                      doc' !! field = doc !! field)
  /\ (exists doc',
        db (cancel_subscription accepts stripe userId subscriptionId w).2 !! id
        = Some doc'
        /\ forall field, field <> "subscriptionData"%string ->
                         doc' !! field = doc !! field).
Proof.
  intros Hdoc. split.
  - destruct (webhook_world accepts stripe body sig w)
      as [-> | (u & data & _ & ->)].
    + by exists doc.
    + by apply update_keeps_document.
  - destruct (cancel_subscription_world accepts stripe userId subscriptionId w)
      as [-> | (u & _ & ->)].
    + by exists doc.
    + by apply update_keeps_document.
Qed.

Lemma handlers_keep_documents_witness :
  (exists doc',
     db (webhook accepts_existing (serving [sub_until (Some 100)] deleted_u1)
           "{}" None world_u1).2 !! "u1" = Some doc'
     /\ forall field, field <> "subscriptionData"%string ->
                      doc' !! field = family_u1 !! field)
  /\ (exists doc',
        db (cancel_subscription accepts_existing
              (serving [sub_until (Some 100)] deleted_u1)
              (Some "u1"%string) (Some "sub_1"%string) world_u1).2 !! "u1"
        = Some doc'
        /\ forall field, field <> "subscriptionData"%string ->
                         doc' !! field = family_u1 !! field).
Proof.
  apply (handlers_keep_documents accepts_existing
           (serving [sub_until (Some 100)] deleted_u1) "{}"
           None (Some "u1"%string) (Some "sub_1"%string) world_u1 "u1"
           family_u1).
  reflexivity.
Defined.

(** X2. A document for which a request sent no update is, after the
    request, what it was before: the webhook and the cancel-subscription
    endpoint change at most the document of the user they write for. *)
Theorem untouched_documents_unchanged
    (accepts : Store -> string -> Document -> bool) (stripe : Stripe)
    (body : string) (sig userId subscriptionId : option string) (w : World)
    (other : string) :
  ((forall data, (other, data) ∉ written w (webhook accepts stripe body sig w).2) ->
   db (webhook accepts stripe body sig w).2 !! other = db w !! other)
  /\ (userId <> Some other ->
      db (cancel_subscription accepts stripe userId subscriptionId w).2 !! other
      = db w !! other).
Proof.
  split.
  - intros Hnot.
    destruct (webhook_world accepts stripe body sig w)
      as [-> | (u & data & Hne & Hw)]; [done|].
    rewrite Hw in *. apply update_keeps_other_documents.
    intros [= ->]. apply (Hnot data).
    rewrite written_one_update by done. left.
  - intros Hother. unfold cancel_subscription.
    destruct (negb (truthy userId) || negb (truthy subscriptionId)); [done|].
    destruct (subscriptions_cancel _ _); [|done].
    simpl. by apply update_keeps_other_documents.
Qed.

(** ** Responses and the store *)

(** X3. The response of the webhook and of the cancel-subscription
    endpoint does not depend on the store: not on its content, and not on
    whether it carries out or refuses the update.  A failed write is
    never reported to the caller. *)
Theorem response_independent_of_store
    (accepts1 accepts2 : Store -> string -> Document -> bool)
    (stripe : Stripe) (body : string)
    (sig userId subscriptionId : option string) (w1 w2 : World) :
  (webhook accepts1 stripe body sig w1).1 = (webhook accepts2 stripe body sig w2).1
  /\ (cancel_subscription accepts1 stripe userId subscriptionId w1).1
     = (cancel_subscription accepts2 stripe userId subscriptionId w2).1.
Proof.
  split.
  - unfold webhook.
    destruct (webhooks_constructEvent stripe body sig) as [event|]; [|done].
    pose proof (process_event_outcome accepts1 accepts2 stripe event w1 w2) as H.
    destruct (process_event accepts1 stripe event w1),
             (process_event accepts2 stripe event w2); done.
  - unfold cancel_subscription.
    destruct (negb (truthy userId) || negb (truthy subscriptionId)); [done|].
    by destruct (subscriptions_cancel _ _).
Qed.

(** X4. Once the signature verifies, the webhook answers either 200
    with [received: true] or 500 with [Webhook processing failed]; and
    when it answers 500 it has sent no update and the store is unchanged,
    so that a redelivery starts from the same state. *)
Theorem webhook_acknowledges_or_fails_clean
    (accepts : Store -> string -> Document -> bool) (stripe : Stripe)
    (body : string) (sig : option string) (w : World) (event : Event) :
  webhooks_constructEvent stripe body sig = Ok event ->
  (webhook accepts stripe body sig w).1 = res_json BReceived
  \/ webhook accepts stripe body sig w
     = (res_status_json 500 (BError "Webhook processing failed" None), w).
Proof.
  intros Hev. unfold webhook. rewrite Hev.
  destruct (process_event accepts stripe event w); [by left | by right].
Qed.

Lemma webhook_acknowledges_or_fails_clean_witness :
  (webhook accepts_existing (delivering deleted_u1) "{}" None world_u1).1
  = res_json BReceived
  \/ webhook accepts_existing (delivering deleted_u1) "{}" None world_u1
     = (res_status_json 500 (BError "Webhook processing failed" None), world_u1).
Proof.
  apply (webhook_acknowledges_or_fails_clean accepts_existing
           (delivering deleted_u1) "{}" None world_u1 deleted_u1).
  reflexivity.
Defined.

(** X5. An [invoice.payment_succeeded] event and an event of a type the
    webhook does not handle change nothing: no update is sent and the
    store is unchanged.  An unhandled type is always acknowledged with
    200. *)
Theorem informational_events_change_nothing
    (accepts : Store -> string -> Document -> bool) (stripe : Stripe)
    (body : string) (sig : option string) (w : World) (event : Event) :
  webhooks_constructEvent stripe body sig = Ok event ->
  (exists invoice, event = InvoicePaymentSucceeded invoice)
  \/ (exists type, event = OtherEvent type) ->
  (webhook accepts stripe body sig w).2 = w
  /\ ((exists type, event = OtherEvent type) ->
      (webhook accepts stripe body sig w).1 = res_json BReceived).
Proof.
  intros Hev Hkind. unfold webhook. rewrite Hev.
  destruct Hkind as [[invoice ->] | [type ->]].
  - split; [|by intros [? [=]]].
    simpl. repeat case_match; simplify_eq; done.
  - done.
Qed.

Lemma informational_events_change_nothing_witness :
  (webhook accepts_existing (delivering (OtherEvent "customer.created"))
     "{}" None world_u1).2 = world_u1
  /\ ((exists type, OtherEvent "customer.created" = OtherEvent type) ->
      (webhook accepts_existing (delivering (OtherEvent "customer.created"))
         "{}" None world_u1).1 = res_json BReceived).
Proof.
  apply (informational_events_change_nothing accepts_existing
           (delivering (OtherEvent "customer.created"))
           "{}" None world_u1 (OtherEvent "customer.created")).
  - reflexivity.
  - right. by eexists.
Defined.

Lemma webhook_skips_pending
    (accepts : Store -> string -> Document -> bool) (stripe : Stripe)
    (body : string) (sig : option string) (w : World) (event : Event)
    (metadata : Metadata) :
  webhooks_constructEvent stripe body sig = Ok event ->
  (exists session,
     event = CheckoutSessionCompleted session
     /\ ses_metadata session = Some metadata)
  \/ (exists updatedSub,
        event = CustomerSubscriptionUpdated updatedSub
        /\ sub_metadata updatedSub = Some metadata) ->
  md_userId metadata = Some "pending"%string ->
  webhook accepts stripe body sig w = (res_json BReceived, w).
Proof.
  intros Hev Hkind Hpending. unfold webhook. rewrite Hev.
  destruct Hkind as [(session & -> & Hmd) | (updatedSub & -> & Hmd)];
    simpl; rewrite Hmd, Hpending; simpl.
  - destruct (ses_subscription session); [|done].
    by rewrite andb_false_r.
  - done.
Qed.

(** X6. A [checkout.session.completed] or a
    [customer.subscription.updated] event whose [metadata.userId] is
    [pending] is acknowledged with 200 and changes nothing, whatever the
    provider would answer: the subscription is not even retrieved. *)
Theorem pending_user_is_skipped
    (accepts : Store -> string -> Document -> bool) (stripe : Stripe)
    (body : string) (sig : option string) (w : World) (event : Event)
    (metadata : Metadata) :
  webhooks_constructEvent stripe body sig = Ok event ->
  (exists session,
     event = CheckoutSessionCompleted session
     /\ ses_metadata session = Some metadata)
  \/ (exists updatedSub,
        event = CustomerSubscriptionUpdated updatedSub
        /\ sub_metadata updatedSub = Some metadata) ->
  md_userId metadata = Some "pending"%string ->
  webhook accepts stripe body sig w = (res_json BReceived, w).
Proof. apply webhook_skips_pending. Qed.

Lemma pending_user_is_skipped_witness :
  webhook accepts_existing
    (delivering (CustomerSubscriptionUpdated
                   (sub_of "active" (Some "pending"%string) [Some 100])))
    "{}" None world_u1
  = (res_json BReceived, world_u1).
Proof.
  apply (pending_user_is_skipped accepts_existing
           (delivering (CustomerSubscriptionUpdated
                          (sub_of "active" (Some "pending"%string) [Some 100])))
           "{}" None world_u1
           (CustomerSubscriptionUpdated
              (sub_of "active" (Some "pending"%string) [Some 100]))
           {| md_userId := Some "pending"%string; md_plan := Some "monthly"%string |}).
  - reflexivity.
  - right. by eexists.
  - reflexivity.
Defined.

(** ** The branches that write *)

(** X7. An [invoice.payment_failed] event whose subscription the
    provider returns with a [metadata.userId], and whose period end
    converts, is acknowledged with 200 after exactly one update for that
    user: status [expired] with the derived end date. *)
Theorem payment_failed_marks_expired
    (accepts : Store -> string -> Document -> bool) (stripe : Stripe)
    (body : string) (sig : option string) (w : World)
    (failedInvoice : Invoice) (subscriptionId : string)
    (subscription : Subscription) (metadata : Metadata) (userId : string)
    (endDate : JsVal) :
  webhooks_constructEvent stripe body sig = Ok (InvoicePaymentFailed failedInvoice) ->
  inv_subscription failedInvoice = Some subscriptionId ->
  subscriptionId <> ""%string ->
  subscriptions_retrieve stripe subscriptionId = Ok subscription ->
  sub_metadata subscription = Some metadata ->
  md_userId metadata = Some userId ->
  userId <> ""%string ->
  subscriptionEndDate_of (sub_items subscription) = Ok endDate ->
  (webhook accepts stripe body sig w).1 = res_json BReceived
  /\ written w (webhook accepts stripe body sig w).2
     = [(userId, {[ "status" := JStr "expired";
                    "subscriptionEndDate" := endDate ]})].
Proof.
  intros Hev Hinv Hsid Hret Hmd Hid Hne Hend.
  unfold webhook. rewrite Hev. simpl. rewrite Hinv. simpl.
  destruct (String.eqb_spec subscriptionId ""); [done|]. simpl.
  rewrite Hret, Hmd, Hid. simpl.
  destruct (String.eqb_spec userId ""); [done|]. simpl.
  rewrite Hend. simpl. split; [done|].
  by apply written_one_update.
Qed.

Lemma payment_failed_marks_expired_witness :
  (webhook accepts_existing
     (serving [sub_until (Some 100)]
        (InvoicePaymentFailed {| inv_subscription := Some "sub_1"%string |}))
     "{}" None world_u1).1 = res_json BReceived
  /\ written world_u1
       (webhook accepts_existing
          (serving [sub_until (Some 100)]
             (InvoicePaymentFailed {| inv_subscription := Some "sub_1"%string |}))
          "{}" None world_u1).2
     = [("u1"%string,
         {[ "status" := JStr "expired";
            "subscriptionEndDate" := JStr "1970-01-01T00:01:40.000Z" ]})].
Proof.
  apply (payment_failed_marks_expired accepts_existing
           (serving [sub_until (Some 100)]
              (InvoicePaymentFailed {| inv_subscription := Some "sub_1"%string |}))
           "{}" None world_u1
           {| inv_subscription := Some "sub_1"%string |} "sub_1"
           (sub_until (Some 100))
           {| md_userId := Some "u1"%string; md_plan := Some "monthly"%string |}
           "u1" (JStr "1970-01-01T00:01:40.000Z"));
    first [reflexivity | discriminate].
Defined.

Lemma webhook_checkout_completed
    (accepts : Store -> string -> Document -> bool) (stripe : Stripe)
    (body : string) (sig : option string) (w : World)
    (session : Session) (subscriptionId : string) (metadata : Metadata)
    (userId : string) (subscription : Subscription) (endDate : JsVal) :
  webhooks_constructEvent stripe body sig = Ok (CheckoutSessionCompleted session) ->
  ses_subscription session = Some subscriptionId ->
  subscriptionId <> ""%string ->
  ses_metadata session = Some metadata ->
  md_userId metadata = Some userId ->
  userId <> "pending"%string ->
  subscriptions_retrieve stripe subscriptionId = Ok subscription ->
  subscriptionEndDate_of (sub_items subscription) = Ok endDate ->
  webhook accepts stripe body sig w
  = (res_json BReceived,
     updateUserSubscription accepts (Some userId)
       {[ "status" := JStr "active";
          "plan" := js_of_opt (md_plan metadata);
          "customerId" := js_of_nullable (ses_customer session);
          "subscriptionId" := JStr subscriptionId;
          "subscriptionEndDate" := endDate ]} w).
Proof.
  intros Hev Hsub Hsid Hmd Hid Hpending Hret Hend.
  unfold webhook. rewrite Hev. simpl. rewrite Hsub, Hmd, Hid. simpl.
  destruct (String.eqb_spec subscriptionId ""); [done|]. simpl.
  rewrite bool_decide_false by congruence. simpl.
  by rewrite Hret, Hend.
Qed.

(** X8. A [checkout.session.completed] event for a session with a
    subscription and a [metadata.userId] that is neither empty nor
    [pending], whose subscription the provider returns and whose period
    end converts, is acknowledged with 200 after exactly one update for
    that user: status [active], the plan of the metadata, the customer of
    the session (null when it has none), the subscription id, and the
    derived end date. *)
Theorem checkout_completed_activates
    (accepts : Store -> string -> Document -> bool) (stripe : Stripe)
    (body : string) (sig : option string) (w : World)
    (session : Session) (subscriptionId : string) (metadata : Metadata)
    (userId : string) (subscription : Subscription) (endDate : JsVal) :
  webhooks_constructEvent stripe body sig = Ok (CheckoutSessionCompleted session) ->
  ses_subscription session = Some subscriptionId ->
  subscriptionId <> ""%string ->
  ses_metadata session = Some metadata ->
  md_userId metadata = Some userId ->
  userId <> ""%string ->
  userId <> "pending"%string ->
  subscriptions_retrieve stripe subscriptionId = Ok subscription ->
  subscriptionEndDate_of (sub_items subscription) = Ok endDate ->
  (webhook accepts stripe body sig w).1 = res_json BReceived
  /\ written w (webhook accepts stripe body sig w).2
     = [(userId, {[ "status" := JStr "active";
                    "plan" := js_of_opt (md_plan metadata);
                    "customerId" := js_of_nullable (ses_customer session);
                    "subscriptionId" := JStr subscriptionId;
                    "subscriptionEndDate" := endDate ]})].
Proof.
  intros Hev Hsub Hsid Hmd Hid Hne Hpending Hret Hend.
  rewrite (webhook_checkout_completed _ _ _ _ _ _ _ _ _ _ _
             Hev Hsub Hsid Hmd Hid Hpending Hret Hend).
  split; [done|]. by apply written_one_update.
Qed.

Lemma checkout_completed_activates_witness :
  (webhook accepts_existing
     (serving [sub_until (Some 100)]
        (CheckoutSessionCompleted
           {| ses_id := "cs_1"; ses_subscription := Some "sub_1"%string;
              ses_customer := None;
              ses_metadata := Some {| md_userId := Some "u1"%string;
                                      md_plan := Some "yearly"%string |} |}))
     "{}" None world_u1).1 = res_json BReceived
  /\ written world_u1
       (webhook accepts_existing
          (serving [sub_until (Some 100)]
             (CheckoutSessionCompleted
                {| ses_id := "cs_1"; ses_subscription := Some "sub_1"%string;
                   ses_customer := None;
                   ses_metadata := Some {| md_userId := Some "u1"%string;
                                           md_plan := Some "yearly"%string |} |}))
          "{}" None world_u1).2
     = [("u1"%string,
         {[ "status" := JStr "active";
            "plan" := JStr "yearly";
            "customerId" := JNull;
            "subscriptionId" := JStr "sub_1";
            "subscriptionEndDate" := JStr "1970-01-01T00:01:40.000Z" ]})].
Proof.
  apply (checkout_completed_activates accepts_existing
           (serving [sub_until (Some 100)]
              (CheckoutSessionCompleted
                 {| ses_id := "cs_1"; ses_subscription := Some "sub_1"%string;
                    ses_customer := None;
                    ses_metadata := Some {| md_userId := Some "u1"%string;
                                            md_plan := Some "yearly"%string |} |}))
           "{}" None world_u1
           {| ses_id := "cs_1"; ses_subscription := Some "sub_1"%string;
              ses_customer := None;
              ses_metadata := Some {| md_userId := Some "u1"%string;
                                      md_plan := Some "yearly"%string |} |}
           "sub_1"
           {| md_userId := Some "u1"%string; md_plan := Some "yearly"%string |}
           "u1" (sub_until (Some 100)) (JStr "1970-01-01T00:01:40.000Z"));
    first [reflexivity | discriminate].
Defined.

Lemma local_status_known (status : string) :
  status ∉ Object_prototype_members -> known_status (local_status status).
Proof.
  intros Hproto. unfold known_status, local_status, object_get, statusMap.
  rewrite !lookup_insert, lookup_singleton.
  repeat case_decide; subst; simpl; auto. done.
Qed.

Lemma subscriptionEndDate_of_shape (items : option (list Item)) (endDate : JsVal) :
  subscriptionEndDate_of items = Ok endDate ->
  endDate = JNull \/ exists iso, endDate = JStr iso.
Proof.
  rewrite subscriptionEndDate_of_periodEnd. unfold iso_of_epoch.
  destruct (periodEnd_of items); [|intros [= <-]; by left].
  destruct (Date_toISOString _); [|done].
  intros [= <-]. right. by eexists.
Qed.

(** X9. Every object sent to the store, by the webhook or by the
    cancel-subscription endpoint, has a user id that is not empty, a
    [subscriptionEndDate] that is null or a string, and a status that is
    one of [active], [expired] and [cancelled]; the one exception to the
    last is a [customer.subscription.updated] event whose provider status
    names a member inherited from [Object.prototype]. *)
Theorem written_objects_well_formed
    (accepts : Store -> string -> Document -> bool) (stripe : Stripe)
    (body : string) (sig userId subscriptionId : option string) (w : World)
    (id : string) (data : Fields) :
  (id, data) ∈ written w (webhook accepts stripe body sig w).2
  \/ (id, data) ∈ written w
       (cancel_subscription accepts stripe userId subscriptionId w).2 ->
  id <> ""%string
  /\ (exists endDate,
        data !! "subscriptionEndDate" = Some endDate
        /\ (endDate = JNull \/ exists iso, endDate = JStr iso))
  /\ exists status,
       data !! "status" = Some status
       /\ (known_status status
           \/ exists updatedSub,
                webhooks_constructEvent stripe body sig
                  = Ok (CustomerSubscriptionUpdated updatedSub)
                /\ sub_status updatedSub ∈ Object_prototype_members).
Proof.
  intros [Hin | Hin].
  - split.
    { destruct (webhook_world accepts stripe body sig w)
        as [Hw | (u & d & Hne & Hw)]; rewrite Hw in Hin.
      - by rewrite written_same, elem_of_nil in Hin.
      - rewrite written_one_update in Hin by done.
        apply list_elem_of_singleton in Hin. by simplify_eq. }
    destruct (webhooks_constructEvent stripe body sig) as [event|] eqn:Hev.
    2:{ unfold webhook in Hin. rewrite Hev in Hin. simpl in Hin.
        by rewrite written_same, elem_of_nil in Hin. }
    pose proof (webhook_written _ _ _ _ _ _ _ _ Hev Hin) as H.
    destruct event; try done.
    + destruct H as (? & ? & ? & endDate & _ & _ & _ & _ & Hend & ->).
      split.
      * exists endDate. split; [|by eapply subscriptionEndDate_of_shape].
        rewrite !lookup_insert_ne by done. apply lookup_singleton_eq.
      * exists (JStr "active"). split; [apply lookup_insert_eq|].
        left. left. done.
    + destruct H as (? & endDate & _ & _ & Hend & ->). split.
      * exists endDate. split; [|by eapply subscriptionEndDate_of_shape].
        rewrite lookup_insert_ne by done. apply lookup_singleton_eq.
      * exists (local_status (sub_status updatedSub)).
        split; [apply lookup_insert_eq|].
        destruct (decide (sub_status updatedSub ∈ Object_prototype_members)).
        -- right. by exists updatedSub.
        -- left. by apply local_status_known.
    + destruct H as (? & _ & _ & ->). split.
      * exists JNull. split; [|by left].
        rewrite lookup_insert_ne by done. apply lookup_singleton_eq.
      * exists (JStr "cancelled"). split; [apply lookup_insert_eq|].
        left. right. right. done.
    + destruct H as (? & ? & ? & endDate & _ & _ & _ & _ & Hend & ->).
      split.
      * exists endDate. split; [|by eapply subscriptionEndDate_of_shape].
        rewrite lookup_insert_ne by done. apply lookup_singleton_eq.
      * exists (JStr "expired"). split; [apply lookup_insert_eq|].
        left. right. left. done.
  - destruct (cancel_subscription_world accepts stripe userId subscriptionId w)
      as [Hw | (u & Hne & Hw)]; rewrite Hw in Hin.
    { by rewrite written_same, elem_of_nil in Hin. }
    rewrite written_one_update in Hin by done.
    apply list_elem_of_singleton in Hin. simplify_eq.
    split; [done|]. split.
    + exists JNull. split; [reflexivity | by left].
    + exists (JStr "cancelled"). split; [reflexivity|].
      left. right. right. done.
Qed.

Lemma written_objects_well_formed_witness :
  "u1"%string <> ""%string
  /\ (exists endDate,
        cancelled_data !! "subscriptionEndDate" = Some endDate
        /\ (endDate = JNull \/ exists iso, endDate = JStr iso))
  /\ exists status,
       cancelled_data !! "status" = Some status
       /\ (known_status status
           \/ exists updatedSub,
                webhooks_constructEvent (delivering deleted_u1) "{}" None
                  = Ok (CustomerSubscriptionUpdated updatedSub)
                /\ sub_status updatedSub ∈ Object_prototype_members).
Proof.
  apply (written_objects_well_formed accepts_existing (delivering deleted_u1)
           "{}" None None None world_u1 "u1" cancelled_data).
  left. vm_compute. left.
Defined.

(** ** Cancel-subscription *)

(** X10. A cancel-subscription request whose [userId] or
    [subscriptionId] is missing or empty is answered 400 without the
    provider being asked and without any update of the store. *)
Theorem cancel_requires_both_ids
    (accepts : Store -> string -> Document -> bool) (stripe : Stripe)
    (userId subscriptionId : option string) (w : World) :
  truthy userId = false \/ truthy subscriptionId = false ->
  cancel_subscription accepts stripe userId subscriptionId w
  = (res_status_json 400 (BError "Missing userId or subscriptionId" None), w).
Proof.
  intros Hmissing. unfold cancel_subscription.
  destruct Hmissing as [-> | ->]; [done|]. by rewrite orb_true_r.
Qed.

Lemma cancel_requires_both_ids_witness :
  cancel_subscription accepts_existing (listing [sub_until (Some 100)])
    (Some "u1"%string) (Some ""%string) world_u1
  = (res_status_json 400 (BError "Missing userId or subscriptionId" None),
     world_u1).
Proof.
  apply (cancel_requires_both_ids accepts_existing
           (listing [sub_until (Some 100)]) (Some "u1"%string)
           (Some ""%string) world_u1).
  right. reflexivity.
Defined.

(** X11. The optimistic write of a successful cancellation and the
    [customer.subscription.deleted] event for the same user lead to the
    same store: from any store, the endpoint alone, the webhook alone,
    and either one followed by the other give equal stores. *)
Theorem cancel_and_deleted_event_converge
    (accepts : Store -> string -> Document -> bool) (stripe : Stripe)
    (body : string) (sig : option string) (w : World)
    (userId subscriptionId : string) (canceled canceledSub : Subscription)
    (metadata : Metadata) :
  userId <> ""%string ->
  subscriptionId <> ""%string ->
  subscriptions_cancel stripe subscriptionId = Ok canceled ->
  webhooks_constructEvent stripe body sig
    = Ok (CustomerSubscriptionDeleted canceledSub) ->
  sub_metadata canceledSub = Some metadata ->
  md_userId metadata = Some userId ->
  let cancel := cancel_subscription accepts stripe (Some userId) (Some subscriptionId) in
  let deliver := webhook accepts stripe body sig in
  db (cancel w).2 = db (deliver w).2
  /\ db (deliver (cancel w).2).2 = db (cancel w).2
  /\ db (cancel (deliver w).2).2 = db (deliver w).2.
Proof.
  intros Hu Hs Hcancel Hev Hmd Hid cancel deliver. subst cancel deliver.
  assert (forall w',
            (cancel_subscription accepts stripe (Some userId)
               (Some subscriptionId) w').2
            = updateUserSubscription accepts (Some userId) cancelled_data w')
    as Hc.
  { intros w'. unfold cancel_subscription. simpl.
    destruct (String.eqb_spec userId ""); [done|].
    destruct (String.eqb_spec subscriptionId ""); [done|]. simpl.
    by rewrite Hcancel. }
  assert (forall w',
            (webhook accepts stripe body sig w').2
            = updateUserSubscription accepts (Some userId) cancelled_data w')
    as Hd.
  { intros w'. by rewrite (webhook_deleted _ _ _ _ _ _ _ _ Hev Hmd Hid Hu). }
  rewrite !Hc, !Hd, ?Hc. split; [done|].
  split; apply db_update_twice.
Qed.

Lemma cancel_and_deleted_event_converge_witness :
  db (cancel_subscription accepts_existing
        (serving [sub_until (Some 100)] deleted_u1)
        (Some "u1"%string) (Some "sub_1"%string) world_u1).2
  = db (webhook accepts_existing (serving [sub_until (Some 100)] deleted_u1)
          "{}" None world_u1).2
  /\ db (webhook accepts_existing (serving [sub_until (Some 100)] deleted_u1)
           "{}" None
           (cancel_subscription accepts_existing
              (serving [sub_until (Some 100)] deleted_u1)
              (Some "u1"%string) (Some "sub_1"%string) world_u1).2).2
     = db (cancel_subscription accepts_existing
             (serving [sub_until (Some 100)] deleted_u1)
             (Some "u1"%string) (Some "sub_1"%string) world_u1).2
  /\ db (cancel_subscription accepts_existing
           (serving [sub_until (Some 100)] deleted_u1)
           (Some "u1"%string) (Some "sub_1"%string)
           (webhook accepts_existing (serving [sub_until (Some 100)] deleted_u1)
              "{}" None world_u1).2).2
     = db (webhook accepts_existing (serving [sub_until (Some 100)] deleted_u1)
             "{}" None world_u1).2.
Proof.
  apply (cancel_and_deleted_event_converge accepts_existing
           (serving [sub_until (Some 100)] deleted_u1) "{}" None world_u1
           "u1" "sub_1" (sub_until (Some 100))
           (sub_of "canceled" (Some "u1"%string) [Some 100])
           {| md_userId := Some "u1"%string; md_plan := Some "monthly"%string |});
    first [reflexivity | discriminate].
Defined.

(** ** Restore-subscription and verify-payment *)

(** X12. When restore-subscription finds an active subscription with a
    first line item, and the period end converts, the summary returned
    has the id and the status of the subscription and the id of the
    customer, and its plan is [yearly] exactly when the interval of the
    first line item is [year], and [monthly] otherwise. *)
Theorem restore_subscription_summary (stripe : Stripe)
    (userId email : option string) (customer : Customer)
    (others : list Customer) (subscription : Subscription)
    (others' : list Subscription) (item0 : Item) (items : list Item)
    (endDate : JsVal) :
  customers_list stripe email = Ok (customer :: others) ->
  subscriptions_list stripe (cus_id customer) = Ok (subscription :: others') ->
  sub_items subscription = Some (item0 :: items) ->
  subscriptionEndDate_of (sub_items subscription) = Ok endDate ->
  exists summary,
    restore_subscription stripe userId email
      = res_json (BSubscription (Some summary))
    /\ sum_id summary = sub_id subscription
    /\ sum_status summary = sub_status subscription
    /\ sum_customer summary = cus_id customer
    /\ sum_current_period_end summary = endDate
    /\ (sum_plan summary = "yearly"%string <-> item_interval item0 = "year"%string)
    /\ (sum_plan summary = "monthly"%string <-> item_interval item0 <> "year"%string).
Proof.
  intros Hc Hs Hi Hend. unfold restore_subscription.
  rewrite Hc, Hs, Hi. rewrite <- Hi, Hend.
  eexists. split; [reflexivity|]. simpl.
  repeat split; try done;
    destruct (String.eqb_spec (item_interval item0) "year"); try done.
Qed.

Lemma restore_subscription_summary_witness :
  exists summary,
    restore_subscription (listing [sub_until (Some 100)]) None
      (Some "a@farm.test"%string)
      = res_json (BSubscription (Some summary))
    /\ sum_id summary = "sub_1"%string
    /\ sum_status summary = "active"%string
    /\ sum_customer summary = "cus_1"%string
    /\ sum_current_period_end summary = JStr "1970-01-01T00:01:40.000Z"
    /\ (sum_plan summary = "yearly"%string <-> "month"%string = "year"%string)
    /\ (sum_plan summary = "monthly"%string <-> "month"%string <> "year"%string).
Proof.
  apply (restore_subscription_summary (listing [sub_until (Some 100)]) None
           (Some "a@farm.test"%string)
           {| cus_id := "cus_1"; cus_email := None |} []
           (sub_until (Some 100)) [] (item_ending (Some 100)) []
           (JStr "1970-01-01T00:01:40.000Z")); reflexivity.
Defined.

(** X13. When restore-subscription finds an active subscription
    without line items, it answers 500 with [Failed to check
    subscription], not a null subscription: the interval of the first
    line item is read before the line items are checked. *)
Theorem restore_subscription_without_items (stripe : Stripe)
    (userId email : option string) (customer : Customer)
    (others : list Customer) (subscription : Subscription)
    (others' : list Subscription) :
  customers_list stripe email = Ok (customer :: others) ->
  subscriptions_list stripe (cus_id customer) = Ok (subscription :: others') ->
  sub_items subscription = None \/ sub_items subscription = Some [] ->
  exists details,
    restore_subscription stripe userId email
    = res_status_json 500 (BError "Failed to check subscription" (Some details)).
Proof.
  intros Hc Hs Hi. unfold restore_subscription. rewrite Hc, Hs.
  destruct Hi as [-> | ->]; by eexists.
Qed.

Lemma restore_subscription_without_items_witness :
  exists details,
    restore_subscription (listing [sub_of "active" (Some "u1"%string) []])
      (Some "u1"%string) (Some "a@farm.test"%string)
    = res_status_json 500 (BError "Failed to check subscription" (Some details)).
Proof.
  apply (restore_subscription_without_items
           (listing [sub_of "active" (Some "u1"%string) []])
           (Some "u1"%string) (Some "a@farm.test"%string)
           {| cus_id := "cus_1"; cus_email := None |} []
           (sub_of "active" (Some "u1"%string) []) []);
    [reflexivity | reflexivity | right; reflexivity].
Defined.

(** X14. The two read-only endpoints agree on the lookup: for the same
    email and provider, when restore-subscription answers with a null
    subscription then verify-payment answers [hasValidPayment: false],
    and when verify-payment answers [hasValidPayment: true] then
    restore-subscription does not answer with a null subscription. *)
Theorem verify_and_restore_agree (stripe : Stripe) (nowMs : Z)
    (userId email : option string) :
  truthy email = true ->
  (restore_subscription stripe userId email = res_json (BSubscription None) ->
   verify_payment stripe nowMs email = res_json (BHasValidPayment false))
  /\ (verify_payment stripe nowMs email = res_json (BHasValidPayment true) ->
      restore_subscription stripe userId email <> res_json (BSubscription None)).
Proof.
  intros Hemail.
  assert (restore_subscription stripe userId email = res_json (BSubscription None) ->
          verify_payment stripe nowMs email = res_json (BHasValidPayment false))
    as Hnull.
  { unfold restore_subscription, verify_payment. rewrite Hemail. simpl.
    destruct (customers_list stripe email) as [[|customer others]|]; try done.
    destruct (subscriptions_list stripe (cus_id customer))
      as [[|subscription others']|]; try done.
    destruct (sub_items subscription) as [[|item0 items]|]; try done.
    by destruct (subscriptionEndDate_of _). }
  split; [done|].
  intros Hvalid Hrestore. apply Hnull in Hrestore.
  rewrite Hvalid in Hrestore. discriminate.
Qed.

Lemma verify_and_restore_agree_witness :
  (restore_subscription (listing []) None (Some "a@farm.test"%string)
   = res_json (BSubscription None) ->
   verify_payment (listing []) 200500 (Some "a@farm.test"%string)
   = res_json (BHasValidPayment false))
  /\ (verify_payment (listing []) 200500 (Some "a@farm.test"%string)
      = res_json (BHasValidPayment true) ->
      restore_subscription (listing []) None (Some "a@farm.test"%string)
      <> res_json (BSubscription None)).
Proof.
  apply (verify_and_restore_agree (listing []) 200500 None
           (Some "a@farm.test"%string)).
  reflexivity.
Defined.

(** ** The period end, further *)

Lemma periodEnd_of_same_ends (items1 items2 : option (list Item)) :
  (forall e, counted_end items1 e <-> counted_end items2 e) ->
  periodEnd_of items1 = periodEnd_of items2.
Proof.
  intros Hsame.
  destruct (periodEnd_of items1) as [p|] eqn:H1,
           (periodEnd_of items2) as [q|] eqn:H2; [| | |done].
  - apply periodEnd_of_some in H1 as [Hp Hlep].
    apply periodEnd_of_some in H2 as [Hq Hleq].
    f_equal. apply Z.le_antisymm.
    + apply Hlep, Hsame, Hq.
    + apply Hleq, Hsame, Hp.
  - apply periodEnd_of_some in H1 as [Hp _].
    pose proof (proj1 (periodEnd_of_none items2) H2) as Hnone.
    exfalso. apply (Hnone p), Hsame, Hp.
  - apply periodEnd_of_some in H2 as [Hq _].
    pose proof (proj1 (periodEnd_of_none items1) H1) as Hnone.
    exfalso. apply (Hnone q), Hsame, Hq.
Qed.

(** X15. The derived end date does not depend on the order of the line
    items: two lists of line items that are permutations of each other
    give the same end date, or fail to convert alike. *)
Theorem end_date_ignores_item_order (data data' : list Item) :
  data ≡ₚ data' ->
  subscriptionEndDate_of (Some data) = subscriptionEndDate_of (Some data').
Proof.
  intros Hperm. rewrite !subscriptionEndDate_of_periodEnd.
  rewrite (periodEnd_of_same_ends (Some data) (Some data')); [done|].
  intros e. split.
  - intros (d & it & [= <-] & Hin & Heq & Hne).
    rewrite Hperm in Hin. by exists data', it.
  - intros (d & it & [= <-] & Hin & Heq & Hne).
    rewrite <- Hperm in Hin. by exists data, it.
Qed.

Lemma end_date_ignores_item_order_witness :
  subscriptionEndDate_of (Some [item_ending (Some 100); item_ending (Some 50)])
  = subscriptionEndDate_of (Some [item_ending (Some 50); item_ending (Some 100)]).
Proof.
  apply (end_date_ignores_item_order
           [item_ending (Some 100); item_ending (Some 50)]
           [item_ending (Some 50); item_ending (Some 100)]).
  apply perm_swap.
Defined.

(** X16. When every period end counted lies in the range of [Date],
    8.64e12 seconds either side of the epoch, the derivation of the end
    date does not throw. *)
Theorem end_date_converts_in_range (items : option (list Item)) :
  (forall e, counted_end items e -> in_date_range e) ->
  exists endDate, subscriptionEndDate_of items = Ok endDate.
Proof.
  intros Hrange. rewrite subscriptionEndDate_of_periodEnd.
  destruct (periodEnd_of items) as [p|] eqn:Hp; [|by eexists].
  apply periodEnd_of_some in Hp as [Hp _]. apply Hrange in Hp.
  unfold in_date_range in Hp. unfold iso_of_epoch, Date_toISOString.
  destruct (Z.leb_spec (Z.abs (p * 1000)) 8640000000000000); [by eexists | lia].
Qed.

Lemma end_date_converts_in_range_witness :
  exists endDate,
    subscriptionEndDate_of (Some [item_ending (Some 1700000000)]) = Ok endDate.
Proof.
  apply (end_date_converts_in_range (Some [item_ending (Some 1700000000)])).
  intros e (data & it & [= <-] & Hin & Heq & _).
  apply list_elem_of_singleton in Hin. subst it. simpl in Heq.
  injection Heq as <-. unfold in_date_range. lia.
Defined.

(** X17. A [customer.subscription.updated] event for a real user id
    whose least counted period end lies outside the range of [Date] is
    answered 500, [toISOString] having thrown, and nothing is written. *)
Theorem updated_event_out_of_range
    (accepts : Store -> string -> Document -> bool) (stripe : Stripe)
    (body : string) (sig : option string) (w : World)
    (updatedSub : Subscription) (metadata : Metadata) (userId : string)
    (p : Z) :
  webhooks_constructEvent stripe body sig
    = Ok (CustomerSubscriptionUpdated updatedSub) ->
  sub_metadata updatedSub = Some metadata ->
  md_userId metadata = Some userId ->
  userId <> ""%string ->
  userId <> "pending"%string ->
  periodEnd_of (sub_items updatedSub) = Some p ->
  ~ in_date_range p ->
  webhook accepts stripe body sig w
  = (res_status_json 500 (BError "Webhook processing failed" None), w).
Proof.
  intros Hev Hmd Hid Hne Hpending Hp Hrange.
  assert (subscriptionEndDate_of (sub_items updatedSub)
          = Throw "Invalid time value") as Hthrow.
  { rewrite subscriptionEndDate_of_periodEnd, Hp.
    unfold iso_of_epoch, Date_toISOString, in_date_range in *.
    destruct (Z.leb_spec (Z.abs (p * 1000)) 8640000000000000); [lia | done]. }
  unfold webhook. rewrite Hev. simpl. rewrite Hmd, Hid, Hthrow. simpl.
  destruct (String.eqb_spec userId ""); [done|].
  by rewrite bool_decide_false by congruence.
Qed.

Lemma updated_event_out_of_range_witness :
  webhook accepts_existing
    (delivering (CustomerSubscriptionUpdated
                   (sub_of "active" (Some "u1"%string) [Some 8640000000001])))
    "{}" None world_u1
  = (res_status_json 500 (BError "Webhook processing failed" None), world_u1).
Proof.
  apply (updated_event_out_of_range accepts_existing
           (delivering (CustomerSubscriptionUpdated
                          (sub_of "active" (Some "u1"%string) [Some 8640000000001])))
           "{}" None world_u1
           (sub_of "active" (Some "u1"%string) [Some 8640000000001])
           {| md_userId := Some "u1"%string; md_plan := Some "monthly"%string |}
           "u1" 8640000000001);
    first [reflexivity | discriminate | unfold in_date_range; lia].
Defined.

(** ** Checkout sessions and the webhook *)

Lemma str_or_nonempty (v : option string) (d : string) :
  d <> ""%string -> str_or v d <> ""%string.
Proof.
  intros Hd. unfold str_or. destruct v as [s|]; [|done].
  by destruct (String.eqb_spec s "").
Qed.

Lemma str_or_truthy (v : option string) (d : string) :
  truthy v = true -> Some (str_or v d) = v.
Proof.
  unfold truthy, str_or. destruct v as [s|]; [|done].
  by destruct (String.eqb_spec s "").
Qed.

Lemma str_or_falsy (v : option string) (d : string) :
  truthy v = false -> str_or v d = d.
Proof.
  unfold truthy, str_or. destruct v as [s|]; [|done].
  by destruct (String.eqb_spec s "").
Qed.

(** X18. A checkout session created for a request without a user id
    carries the user id [pending], and the
    [checkout.session.completed] event of such a session is acknowledged
    with 200 without any update of the store: the payment is linked to no
    family record. *)
Theorem checkout_without_user_is_not_recorded
    (env : Env) (origin : option string) (req : CheckoutRequest)
    (accepts : Store -> string -> Document -> bool) (stripe : Stripe)
    (body : string) (sig : option string) (w : World) (session : Session) :
  truthy (co_userId req) = false ->
  webhooks_constructEvent stripe body sig = Ok (CheckoutSessionCompleted session) ->
  ses_metadata session
    = Some (metadata_of_config (sessionConfig_of env origin req)) ->
  cfg_metadata_userId (sessionConfig_of env origin req) = "pending"%string
  /\ webhook accepts stripe body sig w = (res_json BReceived, w).
Proof.
  intros Hnone Hev Hmd.
  assert (cfg_metadata_userId (sessionConfig_of env origin req) = "pending"%string)
    as Hpending by (by apply str_or_falsy).
  split; [done|].
  apply (webhook_skips_pending accepts stripe body sig w
           (CheckoutSessionCompleted session)
           (metadata_of_config (sessionConfig_of env origin req)));
    [done | left; by exists session |].
  unfold metadata_of_config. simpl. by rewrite str_or_falsy.
Qed.

Lemma checkout_without_user_is_not_recorded_witness :
  cfg_metadata_userId
    (sessionConfig_of
       {| STRIPE_MONTHLY_PRICE_ID := Some "price_m"%string;
          STRIPE_YEARLY_PRICE_ID := None |}
       (Some "https://farm.test"%string)
       {| co_plan := Some "monthly"%string; co_userId := None;
          co_email := Some "a@farm.test"%string; co_familyName := None;
          co_isNewSignup := true |}) = "pending"%string
  /\ webhook accepts_existing
       (delivering (CheckoutSessionCompleted
          {| ses_id := "cs_1"; ses_subscription := Some "sub_1"%string;
             ses_customer := Some "cus_1"%string;
             ses_metadata := Some {| md_userId := Some "pending"%string;
                                     md_plan := Some "monthly"%string |} |}))
       "{}" None world_u1
     = (res_json BReceived, world_u1).
Proof.
  apply (checkout_without_user_is_not_recorded
           {| STRIPE_MONTHLY_PRICE_ID := Some "price_m"%string;
              STRIPE_YEARLY_PRICE_ID := None |}
           (Some "https://farm.test"%string)
           {| co_plan := Some "monthly"%string; co_userId := None;
              co_email := Some "a@farm.test"%string; co_familyName := None;
              co_isNewSignup := true |}
           accepts_existing
           (delivering (CheckoutSessionCompleted
              {| ses_id := "cs_1"; ses_subscription := Some "sub_1"%string;
                 ses_customer := Some "cus_1"%string;
                 ses_metadata := Some {| md_userId := Some "pending"%string;
                                         md_plan := Some "monthly"%string |} |}))
           "{}" None world_u1
           {| ses_id := "cs_1"; ses_subscription := Some "sub_1"%string;
              ses_customer := Some "cus_1"%string;
              ses_metadata := Some {| md_userId := Some "pending"%string;
                                      md_plan := Some "monthly"%string |} |});
    reflexivity.
Defined.

(** X19. A checkout session created for a request with a user id other
    than [pending] carries that user id and the plan of the request, and
    the [checkout.session.completed] event of such a session, its
    subscription retrieved and its period end converted, sends exactly
    one update, for that user, with status [active] and the plan of the
    request, whatever string it is. *)
Theorem checkout_with_user_is_recorded
    (env : Env) (origin : option string) (req : CheckoutRequest)
    (accepts : Store -> string -> Document -> bool) (stripe : Stripe)
    (body : string) (sig : option string) (w : World) (session : Session)
    (userId subscriptionId : string) (subscription : Subscription)
    (endDate : JsVal) :
  co_userId req = Some userId ->
  userId <> ""%string ->
  userId <> "pending"%string ->
  webhooks_constructEvent stripe body sig = Ok (CheckoutSessionCompleted session) ->
  ses_metadata session
    = Some (metadata_of_config (sessionConfig_of env origin req)) ->
  ses_subscription session = Some subscriptionId ->
  subscriptionId <> ""%string ->
  subscriptions_retrieve stripe subscriptionId = Ok subscription ->
  subscriptionEndDate_of (sub_items subscription) = Ok endDate ->
  written w (webhook accepts stripe body sig w).2
  = [(userId, {[ "status" := JStr "active";
                 "plan" := js_of_opt (co_plan req);
                 "customerId" := js_of_nullable (ses_customer session);
                 "subscriptionId" := JStr subscriptionId;
                 "subscriptionEndDate" := endDate ]})].
Proof.
  intros Hreq Hne Hpending Hev Hmd Hsub Hsid Hret Hend.
  assert (md_userId (metadata_of_config (sessionConfig_of env origin req))
          = Some userId) as Hid.
  { simpl. rewrite Hreq. simpl. by destruct (String.eqb_spec userId ""). }
  assert (md_plan (metadata_of_config (sessionConfig_of env origin req))
          = co_plan req) as Hplan.
  { simpl. by destruct (co_plan req). }
  rewrite (webhook_checkout_completed _ _ _ _ _ _ _ _ _ _ _
             Hev Hsub Hsid Hmd Hid Hpending Hret Hend).
  rewrite Hplan. cbn [snd]. by apply written_one_update.
Qed.

Lemma checkout_with_user_is_recorded_witness :
  written world_u1
    (webhook accepts_existing
       (serving [sub_until (Some 100)]
          (CheckoutSessionCompleted
             {| ses_id := "cs_1"; ses_subscription := Some "sub_1"%string;
                ses_customer := Some "cus_1"%string;
                ses_metadata := Some {| md_userId := Some "u1"%string;
                                        md_plan := Some "weekly"%string |} |}))
       "{}" None world_u1).2
  = [("u1"%string,
      {[ "status" := JStr "active";
         "plan" := JStr "weekly";
         "customerId" := JStr "cus_1";
         "subscriptionId" := JStr "sub_1";
         "subscriptionEndDate" := JStr "1970-01-01T00:01:40.000Z" ]})].
Proof.
  apply (checkout_with_user_is_recorded
           {| STRIPE_MONTHLY_PRICE_ID := Some "price_m"%string;
              STRIPE_YEARLY_PRICE_ID := None |}
           (Some "https://farm.test"%string)
           {| co_plan := Some "weekly"%string; co_userId := Some "u1"%string;
              co_email := Some "a@farm.test"%string; co_familyName := None;
              co_isNewSignup := false |}
           accepts_existing
           (serving [sub_until (Some 100)]
              (CheckoutSessionCompleted
                 {| ses_id := "cs_1"; ses_subscription := Some "sub_1"%string;
                    ses_customer := Some "cus_1"%string;
                    ses_metadata := Some {| md_userId := Some "u1"%string;
                                            md_plan := Some "weekly"%string |} |}))
           "{}" None world_u1
           {| ses_id := "cs_1"; ses_subscription := Some "sub_1"%string;
              ses_customer := Some "cus_1"%string;
              ses_metadata := Some {| md_userId := Some "u1"%string;
                                      md_plan := Some "weekly"%string |} |}
           "u1" "sub_1" (sub_until (Some 100))
           (JStr "1970-01-01T00:01:40.000Z"));
    first [reflexivity | discriminate].
Defined.

(** X20. The price a checkout request forwards to the provider is, for
    the plan [monthly], the monthly price id of the environment when one
    is configured and not empty, and the placeholder
    [price_YOUR_MONTHLY_PRICE_ID] otherwise; for the plan [yearly], the
    yearly price id when configured and not empty, and the placeholder
    [price_YOUR_YEARLY_PRICE_ID] otherwise; so never the empty string.
    For a missing plan, and for every other plan that does not name a
    member inherited from [Object.prototype], it is [undefined].  Nothing
    is checked locally: the answer is 200 with the session id when the
    provider accepts the configuration and 500 with its message when it
    does not. *)
Theorem checkout_price_and_answer (env : Env)
    (create : SessionConfig -> Exn string) (origin : option string)
    (req : CheckoutRequest) :
  let config := sessionConfig_of env origin req in
  (co_plan req = Some "monthly"%string ->
   (forall id, STRIPE_MONTHLY_PRICE_ID env = Some id -> id <> ""%string ->
               cfg_price config = JStr id)
   /\ (truthy (STRIPE_MONTHLY_PRICE_ID env) = false ->
       cfg_price config = JStr "price_YOUR_MONTHLY_PRICE_ID")
   /\ cfg_price config <> JStr "")
  /\ (co_plan req = Some "yearly"%string ->
      (forall id, STRIPE_YEARLY_PRICE_ID env = Some id -> id <> ""%string ->
                  cfg_price config = JStr id)
      /\ (truthy (STRIPE_YEARLY_PRICE_ID env) = false ->
          cfg_price config = JStr "price_YOUR_YEARLY_PRICE_ID")
      /\ cfg_price config <> JStr "")
  /\ (co_plan req = None -> cfg_price config = JUndefined)
  /\ (forall plan, co_plan req = Some plan ->
        plan <> "monthly"%string -> plan <> "yearly"%string ->
        plan ∉ Object_prototype_members ->
        cfg_price config = JUndefined)
  /\ match create config with
     | Ok id => create_checkout_session env create origin req = (200, CheckoutId id)
     | Throw message =>
         create_checkout_session env create origin req
         = (500, CheckoutError "Failed to create checkout session" message)
     end.
Proof.
  intros config. subst config. unfold sessionConfig_of, object_get, prices.
  simpl. split; [|split; [|split; [|split]]].
  - intros ->. simpl. rewrite lookup_insert_eq. split; [|split].
    + intros id -> Hid. simpl. by destruct (String.eqb_spec id "").
    + intros Hnone. by rewrite str_or_falsy.
    + intros [= Hempty]. by apply str_or_nonempty in Hempty.
  - intros ->. simpl. rewrite lookup_insert_ne by done.
    rewrite lookup_singleton_eq. split; [|split].
    + intros id -> Hid. simpl. by destruct (String.eqb_spec id "").
    + intros Hnone. by rewrite str_or_falsy.
    + intros [= Hempty]. by apply str_or_nonempty in Hempty.
  - intros ->. simpl. rewrite lookup_insert_ne by done.
    rewrite lookup_singleton_ne by done. reflexivity.
  - intros plan -> Hm Hy Hproto. simpl.
    rewrite lookup_insert_ne by done. rewrite lookup_singleton_ne by done.
    by rewrite bool_decide_false.
  - unfold create_checkout_session, sessionConfig_of, object_get, prices.
    by destruct (create _).
Qed.

(** ** The page route *)

Lemma starts_with_spec (s sub : string) :
  starts_with s sub = true <-> exists post, s = String.append sub post.
Proof.
  revert s. induction sub as [|b sub IH]; intros s.
  - split; [|by destruct s]. intros _. by exists s.
  - destruct s as [|a s]; simpl.
    + split; [done|]. intros [post [=]].
    + rewrite andb_true_iff, IH. split.
      * intros [Hab [post ->]]. apply Ascii.eqb_eq in Hab as ->. by exists post.
      * intros [post [= -> ->]]. split; [apply Ascii.eqb_refl | by exists post].
Qed.

Lemma includes_cons (a : ascii) (s sub : string) :
  includes (String a s) sub = starts_with (String a s) sub || includes s sub.
Proof. reflexivity. Qed.

Lemma includes_spec (s sub : string) :
  includes s sub = true
  <-> exists pre post, s = String.append pre (String.append sub post).
Proof.
  induction s as [|a s IH].
  - change (includes EmptyString sub)
      with (starts_with EmptyString sub || false).
    rewrite orb_false_r, starts_with_spec. split.
    + intros [post ->]. by exists EmptyString, post.
    + intros ([|c pre] & post & Heq); [by exists post | done].
  - rewrite includes_cons, orb_true_iff, starts_with_spec, IH. split.
    + intros [[post ->] | (pre & post & ->)].
      * by exists EmptyString, post.
      * by exists (String a pre), post.
    + intros ([|c pre] & post & Heq).
      * left. by exists post.
      * right. simpl in Heq. injection Heq as -> ->. by exists pre, post.
Qed.

(** X21. The page route answers 200 with the text [OK] exactly when the
    [User-Agent] header contains [GoogleHC] or contains [health], in this
    spelling, or the [X-Health-Check] header is present and not empty;
    every other request is sent the file [app.html]. *)
Theorem root_route_health_check (userAgentHeader healthCheckHeader : option string) :
  let userAgent := default EmptyString userAgentHeader in
  let health_check :=
    (exists pre post,
       userAgent = String.append pre (String.append "GoogleHC" post))
    \/ (exists pre post,
          userAgent = String.append pre (String.append "health" post))
    \/ truthy healthCheckHeader = true in
  (health_check -> root_route userAgentHeader healthCheckHeader = Send 200 "OK")
  /\ (~ health_check ->
      root_route userAgentHeader healthCheckHeader = SendFile "app.html").
Proof.
  intros userAgent health_check.
  assert (str_or userAgentHeader "" = userAgent) as Hua.
  { subst userAgent. destruct userAgentHeader as [s|]; [|done].
    simpl. by destruct (String.eqb_spec s ""). }
  assert (health_check
          <-> includes userAgent "GoogleHC" || includes userAgent "health"
              || truthy healthCheckHeader = true) as Hiff.
  { subst health_check. rewrite !orb_true_iff, !includes_spec. tauto. }
  unfold root_route. rewrite Hua.
  destruct (includes userAgent "GoogleHC" || includes userAgent "health"
            || truthy healthCheckHeader).
  - split; [done|]. intros Hno. exfalso. apply Hno, Hiff. done.
  - split; [|done]. intros Hyes. apply Hiff in Hyes. done.
Qed.
